(** * TextSaver: a shallow embedding of [text_saver_mcp.py]

    The development follows the source file top to bottom.

    - A Python [str] is a sequence of Unicode code points ([pystr]);
      [str.encode('utf-8')] is written out byte by byte and fails on a
      surrogate, as Python does.
    - The [os.path] functions the program calls are the POSIX ones
      ([posixpath.isabs], [basename], [dirname], [join]), and [os.linesep]
      is the line feed.
    - [SAFE_FILENAME_PATTERN] is kept as a regular expression and given
      the meaning [re.match] gives it: [$] also matches just before a line
      feed that ends the string.
    - [save_text] runs in a state-and-exception monad over an abstract
      operating system [OS W]. Each call to the operating system may
      return or raise; every call and every log line is recorded in a
      trace, with what was answered.
    - The relations [Verified], [Written], [Storing], [Body] and [Run]
      list the ways a call can go; [save_text_run] shows that every call
      is one of them, and the properties of [save_text] are read off the
      relations.

    Exceptions are the subclasses of [Exception]. A [KeyboardInterrupt]
    or the [SystemExit] of the signal handler, which may arrive at any
    moment, is not part of the model. *)

From Stdlib Require Import String Ascii List NArith Bool Lia.
Import ListNotations.

Local Open Scope N_scope.

(* ================================================================== *)
(** * Python strings *)
(* ================================================================== *)

Module PyStr.

(** A code point; a Python [str] is a sequence of them. *)
Definition char := N.
Definition pystr := list char.

(** ASCII literals of the source, written as Rocq strings. *)
Definition cp (a : ascii) : char := N_of_ascii a.
Definition str (s : string) : pystr := map cp (list_ascii_of_string s).

Definition LF : char := 10.
Definition SLASH : char := cp "/".
Definition BACKSLASH : char := cp "\".
Definition DOT : char := cp ".".
Definition UNDERSCORE : char := cp "_".
Definition HYPHEN : char := cp "-".

Fixpoint eqb (s t : pystr) : bool :=
  match s, t with
  | [], [] => true
  | a :: s', b :: t' => (a =? b) && eqb s' t'
  | _, _ => false
  end.

(** [s.startswith(pre)] *)
Fixpoint startswith (s pre : pystr) : bool :=
  match pre, s with
  | [], _ => true
  | p :: pre', c :: s' => (c =? p) && startswith s' pre'
  | _ :: _, [] => false
  end.

(** [s.endswith(suf)] *)
Definition endswith (s suf : pystr) : bool :=
  startswith (rev s) (rev suf).

(** [sub in s] for two strings. *)
Fixpoint contains (sub s : pystr) : bool :=
  startswith s sub ||
  match s with
  | [] => false
  | _ :: s' => contains sub s'
  end.

(** [bool(s)]: a string is truthy iff it is not empty. *)
Definition truthy (s : pystr) : bool :=
  match s with [] => false | _ :: _ => true end.

End PyStr.
Import PyStr.

(* ================================================================== *)
(** * [posixpath] *)
(* ================================================================== *)

Module PosixPath.

(** [posixpath.isabs(s)]: [s.startswith('/')]. *)
Definition isabs (s : pystr) : bool := startswith s [SLASH].

(** [posixpath.basename(p)]: [i = p.rfind('/') + 1; return p[i:]].
    [after_last_slash acc p] scans [p] from the left; [acc] holds the
    characters seen since the last slash, in reverse. *)
Fixpoint after_last_slash (acc p : pystr) : pystr :=
  match p with
  | [] => rev acc
  | c :: p' => if c =? SLASH then after_last_slash [] p'
               else after_last_slash (c :: acc) p'
  end.

Definition basename (p : pystr) : pystr := after_last_slash [] p.

(** [head = p[:i]] of [posixpath.dirname], [i] as in [basename]. *)
Definition head_upto_last_slash (p : pystr) : pystr :=
  firstn (length p - length (basename p)) p.

(** [s.rstrip('/')] *)
Fixpoint lstrip_slash (s : pystr) : pystr :=
  match s with
  | c :: s' => if c =? SLASH then lstrip_slash s' else s
  | [] => []
  end.
Definition rstrip_slash (s : pystr) : pystr := rev (lstrip_slash (rev s)).

(** [posixpath.dirname(p)]: the head, with trailing slashes removed unless
    the head consists of slashes only. *)
Definition dirname (p : pystr) : pystr :=
  let head := head_upto_last_slash p in
  if truthy head && negb (forallb (fun c => c =? SLASH) head)
  then rstrip_slash head else head.

(** [posixpath.join(a, b)] for two arguments. *)
Definition join (a b : pystr) : pystr :=
  if startswith b [SLASH] then b
  else if negb (truthy a) || endswith a [SLASH] then a ++ b
  else a ++ [SLASH] ++ b.

End PosixPath.

(* ================================================================== *)
(** * The fragment of [re] used by [SAFE_FILENAME_PATTERN] *)
(* ================================================================== *)

Module Re.

(** A character class is a list of inclusive code point ranges. *)
Definition cclass := list (char * char).

Definition in_class (cls : cclass) (c : char) : bool :=
  existsb (fun r => (fst r <=? c) && (c <=? snd r)) cls.

Inductive item :=
| Bol                      (* ^ *)
| Eol                      (* $ *)
| Cls (cls : cclass)       (* [...] *)
| StarCls (cls : cclass).  (* [...]* *)

Definition pattern := list item.

(** Without [re.MULTILINE], [$] matches at the end of the string and also
    just before a line feed that is the last character of the string. *)
Definition at_eol (rest : pystr) : bool :=
  match rest with
  | [] => true
  | [c] => c =? LF
  | _ => false
  end.

(** [matches_at p bos rest]: pattern [p] matches at the current position;
    [rest] is the text from that position on and [bos] tells whether the
    position is the beginning of the string. A star is greedy and
    backtracks. *)
Fixpoint matches_at (p : pattern) (bos : bool) (rest : pystr) {struct p} : bool :=
  match p with
  | [] => true
  | Bol :: p' => bos && matches_at p' bos rest
  | Eol :: p' => at_eol rest && matches_at p' bos rest
  | Cls cls :: p' =>
      match rest with
      | c :: rest' => in_class cls c && matches_at p' false rest'
      | [] => false
      end
  | StarCls cls :: p' =>
      (fix star (bos : bool) (rest : pystr) {struct rest} : bool :=
         match rest with
         | c :: rest' =>
             (in_class cls c && star false rest') || matches_at p' bos rest
         | [] => matches_at p' bos rest
         end) bos rest
  end.

(** [bool(pattern.match(s))] *)
Definition match_ (p : pattern) (s : pystr) : bool := matches_at p true s.

End Re.

(* ================================================================== *)
(** * Global settings *)
(* ================================================================== *)

(** [MAX_TEXT_SIZE = 10 * 1024 * 1024] *)
Definition MAX_TEXT_SIZE : N := 10 * 1024 * 1024.

(** [[a-zA-Z0-9]] *)
Definition ALNUM : Re.cclass :=
  [(cp "a", cp "z"); (cp "A", cp "Z"); (cp "0", cp "9")].

(** [[a-zA-Z0-9_\-\.]] *)
Definition SAFE_CHARS : Re.cclass :=
  ALNUM ++ [(UNDERSCORE, UNDERSCORE); (HYPHEN, HYPHEN); (DOT, DOT)].

(** [SAFE_FILENAME_PATTERN = re.compile(r'^[a-zA-Z0-9][a-zA-Z0-9_\-\.]*$')] *)
Definition SAFE_FILENAME_PATTERN : Re.pattern :=
  [Re.Bol; Re.Cls ALNUM; Re.StarCls SAFE_CHARS; Re.Eol].

(* ================================================================== *)
(** * [validate_filename] and [sanitize_path] *)
(* ================================================================== *)

Definition validate_filename (filename : pystr) : bool :=
  if PosixPath.isabs filename
     || contains (str "..") filename
     || contains (str "/") filename
     || contains (str "\") filename
  then false
  else Re.match_ SAFE_FILENAME_PATTERN filename.

Definition sanitize_path (filename : pystr) : pystr :=
  let base_filename := PosixPath.basename filename in
  let safe_filename :=
    map (fun c => if Re.match_ SAFE_FILENAME_PATTERN [c] then c else UNDERSCORE)
        base_filename in
  if negb (truthy safe_filename) then str "file.txt" else safe_filename.

(* ================================================================== *)
(** * [str.encode('utf-8')] *)
(* ================================================================== *)

Module Utf8.

Definition byte := N.
Definition bytes := list byte.

(** The encoding of one code point; [None] stands for [UnicodeEncodeError],
    which [encode] raises on a surrogate (U+D800..U+DFFF). A number above
    U+10FFFF is no code point of a Python [str]. *)
Definition encode_char (c : char) : option bytes :=
  if c <? 0x80 then Some [c]
  else if c <? 0x800 then
    Some [N.lor 0xC0 (N.shiftr c 6); N.lor 0x80 (N.land c 0x3F)]
  else if (0xD800 <=? c) && (c <=? 0xDFFF) then None
  else if c <? 0x10000 then
    Some [N.lor 0xE0 (N.shiftr c 12);
          N.lor 0x80 (N.land (N.shiftr c 6) 0x3F);
          N.lor 0x80 (N.land c 0x3F)]
  else if c <? 0x110000 then
    Some [N.lor 0xF0 (N.shiftr c 18);
          N.lor 0x80 (N.land (N.shiftr c 12) 0x3F);
          N.lor 0x80 (N.land (N.shiftr c 6) 0x3F);
          N.lor 0x80 (N.land c 0x3F)]
  else None.

Fixpoint encode (s : pystr) : option bytes :=
  match s with
  | [] => Some []
  | c :: s' =>
      match encode_char c, encode s' with
      | Some b, Some bs => Some (b ++ bs)
      | _, _ => None
      end
  end.

(** [len(b)] of a bytes object. *)
Definition len (b : bytes) : N := N.of_nat (length b).

(** [str(e)] of the [UnicodeEncodeError] that [encode] raises. The
    encoder stops at the first character it cannot encode and takes the
    run of such characters that starts there; the text names the codec,
    then the character and its position, or the first and the last
    position of a longer run, then the reason. *)
Definition encodable (c : char) : bool :=
  match encode_char c with
  | Some _ => true
  | None => false
  end.

Fixpoint leading_unencodable (s : pystr) : N :=
  match s with
  | c :: s' => if encodable c then 0 else 1 + leading_unencodable s'
  | [] => 0
  end.

Definition hex_digit (n : N) : char :=
  if n <? 10 then cp "0" + n else cp "a" + (n - 10).

(** The character as [repr] shows it between the quotes: [\udc80]. *)
Definition escape (c : char) : pystr :=
  [BACKSLASH; cp "u"; hex_digit (c / 4096 mod 16); hex_digit (c / 256 mod 16);
   hex_digit (c / 16 mod 16); hex_digit (c mod 16)].

Fixpoint decimal_digits (u : Decimal.uint) : pystr :=
  match u with
  | Decimal.Nil => []
  | Decimal.D0 u' => cp "0" :: decimal_digits u'
  | Decimal.D1 u' => cp "1" :: decimal_digits u'
  | Decimal.D2 u' => cp "2" :: decimal_digits u'
  | Decimal.D3 u' => cp "3" :: decimal_digits u'
  | Decimal.D4 u' => cp "4" :: decimal_digits u'
  | Decimal.D5 u' => cp "5" :: decimal_digits u'
  | Decimal.D6 u' => cp "6" :: decimal_digits u'
  | Decimal.D7 u' => cp "7" :: decimal_digits u'
  | Decimal.D8 u' => cp "8" :: decimal_digits u'
  | Decimal.D9 u' => cp "9" :: decimal_digits u'
  end.

Definition decimal (n : N) : pystr := decimal_digits (N.to_uint n).

Fixpoint error_text_from (s : pystr) (position : N) : pystr :=
  match s with
  | [] => []
  | c :: s' =>
      if encodable c then error_text_from s' (position + 1)
      else
        match leading_unencodable s' with
        | 0 =>
            str "'utf-8' codec can't encode character '" ++ escape c ++
            str "' in position " ++ decimal position ++
            str ": surrogates not allowed"
        | more =>
            str "'utf-8' codec can't encode characters in position " ++
            decimal position ++ [HYPHEN] ++ decimal (position + more) ++
            str ": surrogates not allowed"
        end
  end.

Definition error_text (s : pystr) : pystr := error_text_from s 0.

End Utf8.

(* ================================================================== *)
(** * [datetime] and [strftime] *)
(* ================================================================== *)

Module DateTime.

(** A [datetime.datetime] value. Python keeps [1 <= year <= 9999],
    [1 <= month <= 12], [1 <= day <= 31], [hour < 24], [minute < 60] and
    [second < 60]. *)
Record datetime := {
  year : N; month : N; day : N; hour : N; minute : N; second : N
}.

Definition digit (n : N) : char := cp "0" + n mod 10.

(** [%m], [%d], [%H], [%M], [%S]: two digits, zero padded. *)
Definition two_digits (n : N) : pystr := [digit (n / 10); digit n].

(** [%Y]: the year with century as the documentation of [strftime]
    gives it, four digits from [0001] to [9999]. *)
Definition four_digits (n : N) : pystr :=
  [digit (n / 1000); digit (n / 100); digit (n / 10); digit n].

(** [d.strftime("%Y-%m-%d-%H-%M-%S")] *)
Definition strftime (d : datetime) : pystr :=
  four_digits (year d) ++ [HYPHEN] ++ two_digits (month d) ++ [HYPHEN] ++
  two_digits (day d) ++ [HYPHEN] ++ two_digits (hour d) ++ [HYPHEN] ++
  two_digits (minute d) ++ [HYPHEN] ++ two_digits (second d).

End DateTime.
Export DateTime.

(* ================================================================== *)
(** * Exceptions, messages and results *)
(* ================================================================== *)

(** The texts of the program are Japanese sentences with values spliced
    in. A [message] keeps which sentence it is and the values spliced. *)
Inductive message :=
| Raw (s : pystr)                       (* a text the runtime supplies: str(e) *)
| TextMustBeStr                         (* line 159 *)
| TextTooLarge (limit : N)              (* line 164 *)
| NoWritePermission (filename : pystr)  (* line 200 *)
| IOErrorWhileWriting (detail : message)(* line 203 *)
| NotCreated (abs_path : pystr)         (* line 210 *)
| CreatedButEmpty (abs_path : pystr)    (* line 215 *)
| Saved (abs_path : pystr)              (* line 220 *)
| Unexpected (detail : message).        (* line 237 *)

(** The exception classes the handlers of [save_text] tell apart.
    [PermissionError] is a subclass of [OSError], and [IOError] is another
    name of [OSError]; [OSError] below stands for an [OSError] that is not
    a [PermissionError]. [OtherException] is any other subclass of
    [Exception]. *)
Inductive exn_class :=
| TextTooLargeError
| InvalidFilenameError
| PermissionError
| OSError
| UnicodeEncodeError
| OtherException.

(** An exception: its class and [str(e)]. *)
Inductive exn := Exn (cls : exn_class) (text : message).

(** What a call yields: a value, or a raised exception. *)
Inductive outcome (A : Type) :=
| Return (a : A)
| Raise (e : exn).
Arguments Return {A} a.
Arguments Raise {A} e.

(** The values stored in the result mapping. *)
Inductive pyvalue :=
| VStr (s : pystr)
| VInt (n : N)
| VMsg (m : message).

(** A Python [dict] with string keys, in insertion order. *)
Definition dict := list (string * pyvalue).

Fixpoint get (d : dict) (k : string) : option pyvalue :=
  match d with
  | [] => None
  | (k', v) :: d' => if String.eqb k k' then Some v else get d' k
  end.

Definition keys (d : dict) : list string := map fst d.

(** The arguments of the tool: [text] is annotated [str], but the function
    tests it; [filename] is [Optional[str]]. *)
Inductive pyobj :=
| Str (s : pystr)
| NotStr.

(* ================================================================== *)
(** * Logging and the operating system *)
(* ================================================================== *)

Inductive level := INFO | WARNING | ERROR.

Inductive log_text :=
| UnsafeFilenameTried (filename : pystr)   (* line 174 *)
| FilenameSanitized (filename : pystr)     (* line 177 *)
| WorkingDirectory (cwd : pystr)           (* line 190 *)
| ScriptDirectory (dir : pystr)            (* line 191 *)
| SaveTarget (filepath : pystr)            (* line 192 *)
| TextSizeError (m : message)              (* line 228 *)
| InvalidFilenameLogged (m : message)      (* line 232 *)
| UnexpectedErrorLogged (m : message).     (* line 236 *)

(** One entry per call that leaves the function, with what it answered. *)
Inductive event :=
| Now (d : datetime)
| Mkdir (p : pystr) (r : outcome unit)
| Getcwd (r : outcome pystr)
| Abspath (p : pystr) (r : outcome pystr)
| Write (p : pystr) (data : Utf8.bytes) (r : outcome unit)
| Exists (p : pystr) (r : bool)
| Getsize (p : pystr) (r : outcome N)
| Log (lvl : level) (t : log_text).

(** The operating system as the program sees it, over a state [W] (the
    file system, the clock, the working directory). The calls that change
    the file system return the new state; a call that raises may have
    changed it too. *)
Record OS (W : Type) := {
  (** [datetime.datetime.now()] *)
  os_now : W -> datetime;
  (** [Path(p).mkdir(parents=True, exist_ok=True)] *)
  os_mkdir : pystr -> W -> outcome unit * W;
  (** [os.getcwd()] *)
  os_getcwd : W -> outcome pystr;
  (** [os.path.abspath(p)] *)
  os_abspath : pystr -> W -> outcome pystr;
  (** [with open(p, 'w', encoding='utf-8') as file: file.write(text)],
      given the bytes that reach the file. *)
  os_write : pystr -> Utf8.bytes -> W -> outcome unit * W;
  (** [os.path.exists(p)] *)
  os_exists : pystr -> W -> bool;
  (** [os.path.getsize(p)] *)
  os_getsize : pystr -> W -> outcome N
}.
Arguments os_now {W}.
Arguments os_mkdir {W}.
Arguments os_getcwd {W}.
Arguments os_abspath {W}.
Arguments os_write {W}.
Arguments os_exists {W}.
Arguments os_getsize {W}.

(** [os.linesep] on POSIX. A file opened in text mode with the default
    [newline=None] writes [os.linesep] for every line feed. *)
Definition linesep : pystr := [LF].

Definition translate_newlines (text : pystr) : pystr :=
  flat_map (fun c => if c =? LF then linesep else [c]) text.

(* ================================================================== *)
(** * The monad of [save_text] *)
(* ================================================================== *)

Section Monad.

Context {W : Type}.

(** A computation reads and changes the state of the operating system,
    returns or raises, and leaves a trace. *)
Definition M (A : Type) : Type := W -> outcome A * W * list event.

Definition ret {A} (a : A) : M A := fun w => (Return a, w, []).

Definition raise {A} (e : exn) : M A := fun w => (Raise e, w, []).

Definition bind {A B} (m : M A) (k : A -> M B) : M B :=
  fun w =>
    match m w with
    | (Return a, w1, t1) =>
        match k a w1 with
        | (r, w2, t2) => (r, w2, t1 ++ t2)
        end
    | (Raise e, w1, t1) => (Raise e, w1, t1)
    end.

(** [try: m except ...]: hands the outcome of [m] to the handlers. *)
Definition attempt {A} (m : M A) : M (outcome A) :=
  fun w => match m w with (r, w1, t1) => (Return r, w1, t1) end.

(** A call that only reads the state. *)
Definition reading {A} (f : W -> outcome A) (ev : outcome A -> event)
  : M A :=
  fun w => (f w, w, [ev (f w)]).

(** A call that may change the state. *)
Definition changing {A} (f : W -> outcome A * W) (ev : outcome A -> event)
  : M A :=
  fun w => match f w with (r, w1) => (r, w1, [ev r]) end.

End Monad.

Arguments M W A : clear implicits.

Notation "x <- m ;; k" := (bind m (fun x => k))
  (at level 100, m at next level, right associativity).
Notation "m ;; k" := (bind m (fun _ => k))
  (at level 100, right associativity).

Section Program.

Context {W : Type}.
Variable os : OS W.

(** [ALLOWED_SAVE_DIR], computed once when the module is loaded, and
    [__file__]. *)
Variable ALLOWED_SAVE_DIR : pystr.
Variable SCRIPT_FILE : pystr.

Definition now : M W datetime :=
  fun w => (Return (os_now os w), w, [Now (os_now os w)]).
Definition mkdir (p : pystr) : M W unit := changing (os_mkdir os p) (Mkdir p).
Definition getcwd : M W pystr := reading (os_getcwd os) Getcwd.
Definition abspath (p : pystr) : M W pystr := reading (os_abspath os p) (Abspath p).
Definition exists_ (p : pystr) : M W bool :=
  fun w => (Return (os_exists os p w), w, [Exists p (os_exists os p w)]).
Definition getsize (p : pystr) : M W N := reading (os_getsize os p) (Getsize p).
Definition log (lvl : level) (t : log_text) : M W unit :=
  fun w => (Return tt, w, [Log lvl t]).

(** [text.encode('utf-8')] *)
Definition encode (text : pystr) : M W Utf8.bytes :=
  match Utf8.encode text with
  | Some b => ret b
  | None => raise (Exn UnicodeEncodeError (Raw (Utf8.error_text text)))
  end.

(** Lines 196-197: the text is encoded as it is written. *)
Definition write (filepath text : pystr) : M W unit :=
  data <- encode (translate_newlines text) ;;
  changing (os_write os filepath data) (Write filepath data).

(* ================================================================== *)
(** * [save_text] *)
(* ================================================================== *)

Definition error (m : message) : dict :=
  [("status"%string, VStr (str "error")); ("message"%string, VMsg m)].

Definition success (abs_path : pystr) (file_size : N) (filename : pystr) : dict :=
  [("status"%string, VStr (str "success"));
   ("message"%string, VMsg (Saved abs_path));
   ("path"%string, VStr abs_path);
   ("size"%string, VInt file_size);
   ("filename"%string, VStr filename)].

(** Lines 166-177: the filename is generated, accepted or sanitized.
    [not filename] holds for [None] and for the empty string. *)
Definition choose_filename (filename : option pystr) : M W pystr :=
  match filename with
  | Some ((_ :: _) as f) =>
      if negb (validate_filename f) then
        log WARNING (UnsafeFilenameTried f) ;;
        let f' := sanitize_path f in
        log INFO (FilenameSanitized f') ;;
        ret f'
      else ret f
  | _ =>
      timestamp <- now ;;
      ret (strftime timestamp ++ str ".txt")
  end.

(** Lines 179-181. *)
Definition ensure_txt (filename : pystr) : pystr :=
  if negb (endswith filename (str ".txt")) then filename ++ str ".txt"
  else filename.

(** Lines 205-224: what follows a write that did not raise. *)
Definition verify (text filepath filename : pystr) : M W dict :=
  abs_path <- abspath filepath ;;
  present <- exists_ filepath ;;
  if negb present then ret (error (NotCreated abs_path))
  else
    file_size <- getsize filepath ;;
    if (file_size =? 0) && (0 <? N.of_nat (length text))
    then ret (error (CreatedButEmpty abs_path))
    else ret (success abs_path file_size filename).

(** Lines 157-224: the body of the outer [try]. *)
Definition save_text_body (text : pyobj) (filename : option pystr) : M W dict :=
  match text with
  | NotStr => ret (error TextMustBeStr)
  | Str text =>
      encoded <- encode text ;;
      if MAX_TEXT_SIZE <? Utf8.len encoded
      then raise (Exn TextTooLargeError (TextTooLarge MAX_TEXT_SIZE))
      else
        filename <- choose_filename filename ;;
        let filename := ensure_txt filename in
        mkdir ALLOWED_SAVE_DIR ;;
        let filepath := PosixPath.join ALLOWED_SAVE_DIR filename in
        cwd <- getcwd ;;
        log INFO (WorkingDirectory cwd) ;;
        script <- abspath SCRIPT_FILE ;;
        log INFO (ScriptDirectory (PosixPath.dirname script)) ;;
        log INFO (SaveTarget filepath) ;;
        written <- attempt (write filepath text) ;;
        match written with
        | Raise (Exn PermissionError _) =>
            ret (error (NoWritePermission filename))
        | Raise (Exn OSError detail) =>
            ret (error (IOErrorWhileWriting detail))
        | Raise e => raise e
        | Return _ => verify text filepath filename
        end
  end.

(** Lines 156-237. *)
Definition save_text (text : pyobj) (filename : option pystr) : M W dict :=
  r <- attempt (save_text_body text filename) ;;
  match r with
  | Return d => ret d
  | Raise (Exn TextTooLargeError m) =>
      log ERROR (TextSizeError m) ;; ret (error m)
  | Raise (Exn InvalidFilenameError m) =>
      log ERROR (InvalidFilenameLogged m) ;; ret (error m)
  | Raise (Exn _ m) =>
      log ERROR (UnexpectedErrorLogged m) ;; ret (error (Unexpected m))
  end.

End Program.

(* ================================================================== *)
(** * Two operating systems to run the program on *)
(* ================================================================== *)

(** A file system that does what it is asked: a clock, a working
    directory and the files by path. Paths are compared as they are
    written. *)
Module RefFS.

Record world := {
  clock : datetime;
  cwd : pystr;
  files : list (pystr * Utf8.bytes)
}.

Fixpoint lookup (p : pystr) (fs : list (pystr * Utf8.bytes)) : option Utf8.bytes :=
  match fs with
  | [] => None
  | (q, b) :: fs' => if PyStr.eqb p q then Some b else lookup p fs'
  end.

Definition content (w : world) (p : pystr) : option Utf8.bytes :=
  lookup p (files w).

Definition store (p : pystr) (b : Utf8.bytes) (w : world) : world :=
  {| clock := clock w; cwd := cwd w; files := (p, b) :: files w |}.

Definition os : OS world := {|
  os_now := clock;
  os_mkdir := fun _ w => (Return tt, w);
  os_getcwd := fun w => Return (cwd w);
  os_abspath := fun p w =>
    Return (if PosixPath.isabs p then p else PosixPath.join (cwd w) p);
  os_write := fun p b w => (Return tt, store p b w);
  os_exists := fun p w =>
    match content w p with Some _ => true | None => false end;
  os_getsize := fun p w =>
    match content w p with
    | Some b => Return (Utf8.len b)
    | None => Raise (Exn OSError (Raw (str "No such file or directory")))
    end
|}.

Definition noon : datetime :=
  {| year := 2024; month := 3; day := 9; hour := 12; minute := 0; second := 5 |}.

Definition empty : world :=
  {| clock := noon; cwd := str "/home/user"; files := [] |}.

End RefFS.

(** An operating system that answers from a script, whatever the program
    asked before; it has no state. *)
Module Scripted.

Record answers := {
  a_now : datetime;
  a_mkdir : outcome unit;
  a_getcwd : outcome pystr;
  a_abspath : outcome pystr;
  a_write : outcome unit;
  a_exists : bool;
  a_getsize : outcome N
}.

Definition os (a : answers) : OS unit := {|
  os_now := fun _ => a_now a;
  os_mkdir := fun _ w => (a_mkdir a, w);
  os_getcwd := fun _ => a_getcwd a;
  os_abspath := fun _ _ => a_abspath a;
  os_write := fun _ _ w => (a_write a, w);
  os_exists := fun _ _ => a_exists a;
  os_getsize := fun _ _ => a_getsize a
|}.

(** The file is gone when the program looks for it. *)
Definition vanished : answers := {|
  a_now := RefFS.noon;
  a_mkdir := Return tt;
  a_getcwd := Return (str "/");
  a_abspath := Return (str "/srv/a.txt");
  a_write := Return tt;
  a_exists := false;
  a_getsize := Raise (Exn OSError (Raw (str "No such file or directory")))
|}.

(** The file is there and empty. *)
Definition truncated : answers := {|
  a_now := RefFS.noon;
  a_mkdir := Return tt;
  a_getcwd := Return (str "/");
  a_abspath := Return (str "/srv/a.txt");
  a_write := Return tt;
  a_exists := true;
  a_getsize := Return 0
|}.

End Scripted.

(* ================================================================== *)
(** * Vocabulary of the statements *)
(* ================================================================== *)

(** The two separator characters. *)
Definition is_separator (c : char) : bool := (c =? SLASH) || (c =? BACKSLASH).

Definition no_separator (s : pystr) : bool :=
  forallb (fun c => negb (is_separator c)) s.

(** What [sanitize_path] does to one character. *)
Definition keep_or_underscore (c : char) : char :=
  if Re.in_class ALNUM c then c else UNDERSCORE.

(** The name [choose_filename] settles on, read off lines 166-177. *)
Definition chosen_name {W} (os : OS W) (filename : option pystr) (w : W) : pystr :=
  match filename with
  | Some ((_ :: _) as f) => if validate_filename f then f else sanitize_path f
  | _ => strftime (os_now os w) ++ str ".txt"
  end.

(** The name the file is written under, and the path it is written to. *)
Definition final_name {W} (os : OS W) (filename : option pystr) (w : W) : pystr :=
  ensure_txt (chosen_name os filename w).

Definition target {W} (os : OS W) (root : pystr) (filename : option pystr) (w : W)
  : pystr :=
  PosixPath.join root (final_name os filename w).

(** The writes of a trace: path and bytes, in order. *)
Fixpoint writes (tr : list event) : list (pystr * Utf8.bytes) :=
  match tr with
  | [] => []
  | Write p data _ :: tr' => (p, data) :: writes tr'
  | _ :: tr' => writes tr'
  end.

(** The checks of a trace: what [exists] and [getsize] were asked and
    what they answered. *)
Definition is_check (e : event) : bool :=
  match e with
  | Exists _ _ | Getsize _ _ => true
  | _ => false
  end.

Definition checks (tr : list event) : list event := filter is_check tr.

(** The form of a generated name: a digit where the form has [Digit],
    the character itself elsewhere. *)
Inductive slot := Digit | Lit (c : char).

Definition is_digit (c : char) : bool := (cp "0" <=? c) && (c <=? cp "9").

Fixpoint fits (form : list slot) (s : pystr) : bool :=
  match form, s with
  | [], [] => true
  | Digit :: form', c :: s' => is_digit c && fits form' s'
  | Lit l :: form', c :: s' => (c =? l) && fits form' s'
  | _, _ => false
  end.

(** [YYYY-MM-DD-HH-MM-SS.txt] *)
Definition TIMESTAMP_NAME : list slot :=
  [Digit; Digit; Digit; Digit; Lit HYPHEN; Digit; Digit; Lit HYPHEN;
   Digit; Digit; Lit HYPHEN; Digit; Digit; Lit HYPHEN; Digit; Digit;
   Lit HYPHEN; Digit; Digit; Lit DOT; Lit (cp "t"); Lit (cp "x"); Lit (cp "t")].

(** A file system that does what it is asked, seen through the content
    [content w p] of the file at [p] in state [w]: creating the directory
    and looking up paths succeed, a write succeeds and leaves the bytes in
    the file, and [exists] and [getsize] report what the file holds. *)
Record Faithful {W} (os : OS W) (content : W -> pystr -> option Utf8.bytes)
  : Prop := {
  faithful_mkdir : forall p w, exists w', os_mkdir os p w = (Return tt, w');
  faithful_getcwd : forall w, exists c, os_getcwd os w = Return c;
  faithful_abspath : forall p w, exists a, os_abspath os p w = Return a;
  faithful_write : forall p b w,
    exists w', os_write os p b w = (Return tt, w') /\ content w' p = Some b;
  faithful_exists : forall p w,
    os_exists os p w = match content w p with Some _ => true | None => false end;
  faithful_getsize : forall p w b,
    content w p = Some b -> os_getsize os p w = Return (Utf8.len b)
}.

(** The result mappings: the keys of a failure and of a success. *)
Definition FAILURE_KEYS : list string := ["status"; "message"]%string.
Definition SUCCESS_KEYS : list string :=
  ["status"; "message"; "path"; "size"; "filename"]%string.

(** What [choose_filename] leaves in the trace. *)
Definition choice_trace {W} (os : OS W) (filename : option pystr) (w : W)
  : list event :=
  match filename with
  | Some ((_ :: _) as f) =>
      if validate_filename f then []
      else [Log WARNING (UnsafeFilenameTried f);
            Log INFO (FilenameSanitized (sanitize_path f))]
  | _ => [Now (os_now os w)]
  end.

(** What the handlers of lines 226-237 answer and log for an exception
    that reaches them. *)
Definition answer (e : exn) : dict :=
  match e with
  | Exn TextTooLargeError m => error m
  | Exn InvalidFilenameError m => error m
  | Exn _ m => error (Unexpected m)
  end.

Definition logged (e : exn) : event :=
  match e with
  | Exn TextTooLargeError m => Log ERROR (TextSizeError m)
  | Exn InvalidFilenameError m => Log ERROR (InvalidFilenameLogged m)
  | Exn _ m => Log ERROR (UnexpectedErrorLogged m)
  end.

(** The two exceptions the function raises itself. *)
Definition cannot_encode (t : pystr) : exn :=
  Exn UnicodeEncodeError (Raw (Utf8.error_text t)).
Definition too_large : exn :=
  Exn TextTooLargeError (TextTooLarge MAX_TEXT_SIZE).

(** The inner handlers (lines 198-203) take [PermissionError] and
    [OSError]; every other exception goes on to the outer ones. *)
Definition passes_inner_handlers (e : exn) : bool :=
  match e with
  | Exn PermissionError _ | Exn OSError _ => false
  | _ => true
  end.

Section Semantics.

Context {W : Type}.
Variable os : OS W.
Variables root script : pystr.

(** Lines 205-224, the checks after the write: what they return or
    raise, and the trace. They leave the state [w2] as it is. *)
Inductive Verified (t : pystr) (name p : pystr) (w2 : W)
  : outcome dict -> list event -> Prop :=
| AbspathRaises e :
    os_abspath os p w2 = Raise e ->
    Verified t name p w2 (Raise e) [Abspath p (Raise e)]
| Missing abs_path :
    os_abspath os p w2 = Return abs_path ->
    os_exists os p w2 = false ->
    Verified t name p w2 (Return (error (NotCreated abs_path)))
      [Abspath p (Return abs_path); Exists p false]
| GetsizeRaises abs_path e :
    os_abspath os p w2 = Return abs_path ->
    os_exists os p w2 = true ->
    os_getsize os p w2 = Raise e ->
    Verified t name p w2 (Raise e)
      [Abspath p (Return abs_path); Exists p true; Getsize p (Raise e)]
| Empty abs_path :
    os_abspath os p w2 = Return abs_path ->
    os_exists os p w2 = true ->
    os_getsize os p w2 = Return 0 ->
    t <> [] ->
    Verified t name p w2 (Return (error (CreatedButEmpty abs_path)))
      [Abspath p (Return abs_path); Exists p true; Getsize p (Return 0)]
| Reported abs_path file_size :
    os_abspath os p w2 = Return abs_path ->
    os_exists os p w2 = true ->
    os_getsize os p w2 = Return file_size ->
    file_size <> 0 \/ t = [] ->
    Verified t name p w2 (Return (success abs_path file_size name))
      [Abspath p (Return abs_path); Exists p true;
       Getsize p (Return file_size)].

(** Lines 194-224: the write with its two handlers, and what follows. *)
Inductive Written (t : pystr) (data : Utf8.bytes) (name p : pystr) (w1 : W)
  : outcome dict -> W -> list event -> Prop :=
| WriteDenied m w2 :
    os_write os p data w1 = (Raise (Exn PermissionError m), w2) ->
    Written t data name p w1 (Return (error (NoWritePermission name))) w2
      [Write p data (Raise (Exn PermissionError m))]
| WriteFails m w2 :
    os_write os p data w1 = (Raise (Exn OSError m), w2) ->
    Written t data name p w1 (Return (error (IOErrorWhileWriting m))) w2
      [Write p data (Raise (Exn OSError m))]
| WriteRaises e w2 :
    os_write os p data w1 = (Raise e, w2) ->
    passes_inner_handlers e = true ->
    Written t data name p w1 (Raise e) w2 [Write p data (Raise e)]
| WriteReturns w2 r tr :
    os_write os p data w1 = (Return tt, w2) ->
    Verified t name p w2 r tr ->
    Written t data name p w1 r w2 (Write p data (Return tt) :: tr).

(** Lines 183-224: the directory, the three log lines, the write. *)
Inductive Storing (t : pystr) (data : Utf8.bytes) (name p : pystr) (w : W)
  : outcome dict -> W -> list event -> Prop :=
| MkdirRaises e w1 :
    os_mkdir os root w = (Raise e, w1) ->
    Storing t data name p w (Raise e) w1 [Mkdir root (Raise e)]
| GetcwdRaises e w1 :
    os_mkdir os root w = (Return tt, w1) ->
    os_getcwd os w1 = Raise e ->
    Storing t data name p w (Raise e) w1
      [Mkdir root (Return tt); Getcwd (Raise e)]
| ScriptAbspathRaises e w1 cwd :
    os_mkdir os root w = (Return tt, w1) ->
    os_getcwd os w1 = Return cwd ->
    os_abspath os script w1 = Raise e ->
    Storing t data name p w (Raise e) w1
      [Mkdir root (Return tt); Getcwd (Return cwd);
       Log INFO (WorkingDirectory cwd); Abspath script (Raise e)]
| Prepared w1 cwd script_abs r w2 tr :
    os_mkdir os root w = (Return tt, w1) ->
    os_getcwd os w1 = Return cwd ->
    os_abspath os script w1 = Return script_abs ->
    Written t data name p w1 r w2 tr ->
    Storing t data name p w r w2
      ([Mkdir root (Return tt); Getcwd (Return cwd);
        Log INFO (WorkingDirectory cwd); Abspath script (Return script_abs);
        Log INFO (ScriptDirectory (PosixPath.dirname script_abs));
        Log INFO (SaveTarget p)] ++ tr).

(** Lines 157-224, the body of the outer [try]. *)
Inductive Body (text : pyobj) (filename : option pystr) (w : W)
  : outcome dict -> W -> list event -> Prop :=
| NotText :
    text = NotStr ->
    Body text filename w (Return (error TextMustBeStr)) w []
| Unencodable t :
    text = Str t ->
    Utf8.encode t = None ->
    Body text filename w (Raise (cannot_encode t)) w []
| TooLarge t data :
    text = Str t ->
    Utf8.encode t = Some data ->
    MAX_TEXT_SIZE < Utf8.len data ->
    Body text filename w (Raise too_large) w []
| Stored t data r w' tr :
    text = Str t ->
    Utf8.encode t = Some data ->
    Utf8.len data <= MAX_TEXT_SIZE ->
    Storing t data (final_name os filename w) (target os root filename w) w
            r w' tr ->
    Body text filename w r w' (choice_trace os filename w ++ tr).

(** A call of [save_text]: the body, then the outer handlers. *)
Inductive Run (text : pyobj) (filename : option pystr) (w : W)
  : dict -> W -> list event -> Prop :=
| Returned d w' tr :
    Body text filename w (Return d) w' tr ->
    Run text filename w d w' tr
| Handled e w' tr :
    Body text filename w (Raise e) w' tr ->
    Run text filename w (answer e) w' (tr ++ [logged e]).

End Semantics.

(** Unfolds the calls and the combinators of the monad. *)
Ltac unfold_monad :=
  unfold now, mkdir, getcwd, abspath, exists_, getsize, encode, log in *;
  unfold reading, changing, bind, attempt, ret, raise in *.

(* ================================================================== *)
(** * [signal_handler] and [main] *)
(* ================================================================== *)

(** What a statement of [main] can end with. [except Exception] takes
    the exceptions of [exn]; [KeyboardInterrupt], [SystemExit] and the
    other classes that derive from [BaseException] directly
    ([GeneratorExit], [asyncio.CancelledError]) are no subclasses of
    [Exception]. *)
Inductive raised :=
| Ordinary (e : exn)
| KeyboardInterrupt
| SystemExit (code : N)
| OtherBaseException (class_name : pystr).

Inductive ended (A : Type) :=
| Finished (a : A)
| Thrown (x : raised).
Arguments Finished {A} a.
Arguments Thrown {A} x.

Inductive server_log :=
| SignalReceived (sig : N)         (* line 69 *)
| Starting                         (* line 248 *)
| SaveDirectory (dir : pystr)      (* line 249 *)
| MaximumSize (limit : N)          (* line 250 *)
| Interrupted                      (* line 261 *)
| StartupError (m : message)       (* line 264 *)
| ShutdownComplete.                (* line 269 *)

Inductive server_event :=
| Logged (lvl : level) (t : server_log)
| MadeDirectory (p : pystr) (r : outcome unit)
| Ran (r : ended unit)
| Slept (seconds : N).

(** The host of the server: the operating system, and
    [mcp.run(transport='stdio')], which returns when the server stops or
    ends with what was raised while it ran. A signal is taken to arrive
    while [mcp.run] runs; one that arrives during another statement of
    [main] is outside this model. *)
Record Host (W : Type) := {
  host_os : OS W;
  host_run : W -> ended unit * W
}.
Arguments host_os {W}.
Arguments host_run {W}.

(** Lines 60-70: the handler logs the signal and calls [sys.exit(0)]. *)
Definition signal_handler (sig : N) : ended unit * list server_event :=
  (Thrown (SystemExit 0), [Logged INFO (SignalReceived sig)]).

Section Main.

Context {W : Type}.
Variable host : Host W.
Variable ALLOWED_SAVE_DIR : pystr.

(** Lines 247-258, the body of the [try]. *)
Definition main_body (w : W) : ended unit * W * list server_event :=
  let opening :=
    [Logged INFO Starting;
     Logged INFO (SaveDirectory ALLOWED_SAVE_DIR);
     Logged INFO (MaximumSize MAX_TEXT_SIZE)] in
  match os_mkdir (host_os host) ALLOWED_SAVE_DIR w with
  | (Raise e, w1) =>
      (Thrown (Ordinary e), w1,
       opening ++ [MadeDirectory ALLOWED_SAVE_DIR (Raise e)])
  | (Return _, w1) =>
      match host_run host w1 with
      | (r, w2) =>
          (r, w2,
           opening ++ [MadeDirectory ALLOWED_SAVE_DIR (Return tt); Ran r])
      end
  end.

(** Lines 246-269: the body, the two handlers and the [finally]. *)
Definition main (w : W) : ended unit * W * list server_event :=
  match main_body w with
  | (r, w1, tr) =>
      let '(r1, tr1) :=
        match r with
        | Thrown KeyboardInterrupt =>
            (Finished tt, tr ++ [Logged INFO Interrupted])
        | Thrown (Ordinary (Exn _ m)) =>
            (Finished tt, tr ++ [Logged ERROR (StartupError m); Slept 5])
        | _ => (r, tr)
        end in
      (r1, w1, tr1 ++ [Logged INFO ShutdownComplete])
  end.

End Main.

(** A host whose server ends as the script says. *)
Definition scripted_host (a : Scripted.answers) (r : ended unit) : Host unit := {|
  host_os := Scripted.os a;
  host_run := fun w => (r, w)
|}.

(** The reference file system as a host whose server stops by itself. *)
Definition reference_host : Host RefFS.world := {|
  host_os := RefFS.os;
  host_run := fun w => (Finished tt, w)
|}.

(** An operating system that refuses to create the directory. *)
Definition no_directory : Scripted.answers := {|
  Scripted.a_now := RefFS.noon;
  Scripted.a_mkdir := Raise (Exn PermissionError (Raw (str "Permission denied")));
  Scripted.a_getcwd := Return (str "/");
  Scripted.a_abspath := Return (str "/srv/a.txt");
  Scripted.a_write := Return tt;
  Scripted.a_exists := true;
  Scripted.a_getsize := Return 1
|}.

(** The working directory is gone. *)
Definition no_cwd : Scripted.answers := {|
  Scripted.a_now := RefFS.noon;
  Scripted.a_mkdir := Return tt;
  Scripted.a_getcwd := Raise (Exn OSError (Raw (str "No such file or directory")));
  Scripted.a_abspath := Return (str "/srv/a.txt");
  Scripted.a_write := Return tt;
  Scripted.a_exists := true;
  Scripted.a_getsize := Return 1
|}.

(** The write is refused. *)
Definition read_only : Scripted.answers := {|
  Scripted.a_now := RefFS.noon;
  Scripted.a_mkdir := Return tt;
  Scripted.a_getcwd := Return (str "/");
  Scripted.a_abspath := Return (str "/srv/a.txt");
  Scripted.a_write := Raise (Exn PermissionError (Raw (str "Permission denied")));
  Scripted.a_exists := false;
  Scripted.a_getsize := Return 0
|}.

(* ================================================================== *)
(** * Runs on concrete inputs *)
(* ================================================================== *)

Definition ROOT : pystr := str "/srv".
Definition SCRIPT : pystr := str "/srv/text_saver_mcp.py".

Example validate_report : validate_filename (str "report.txt") = true.
Proof. reflexivity. Qed.

Example validate_traversal : validate_filename (str "../../etc/passwd") = false.
Proof. reflexivity. Qed.

Example sanitize_traversal : sanitize_path (str "../../etc/passwd") = str "passwd".
Proof. reflexivity. Qed.

Example strftime_noon : strftime RefFS.noon = str "2024-03-09-12-00-05".
Proof. reflexivity. Qed.

Example encode_euro : Utf8.encode [0x20AC] = Some [0xE2; 0x82; 0xAC].
Proof. reflexivity. Qed.

Example encode_surrogate : Utf8.encode [0xD800] = None.
Proof. reflexivity. Qed.

Example run_traversal :
  save_text RefFS.os ROOT SCRIPT (Str (str "data")) (Some (str "../../etc/passwd"))
            RefFS.empty
  = (Return (success (str "/srv/passwd.txt") 4 (str "passwd.txt")),
     RefFS.store (str "/srv/passwd.txt") (str "data") RefFS.empty,
     [Log WARNING (UnsafeFilenameTried (str "../../etc/passwd"));
      Log INFO (FilenameSanitized (str "passwd"));
      Mkdir ROOT (Return tt);
      Getcwd (Return (str "/home/user"));
      Log INFO (WorkingDirectory (str "/home/user"));
      Abspath SCRIPT (Return SCRIPT);
      Log INFO (ScriptDirectory ROOT);
      Log INFO (SaveTarget (str "/srv/passwd.txt"));
      Write (str "/srv/passwd.txt") (str "data") (Return tt);
      Abspath (str "/srv/passwd.txt") (Return (str "/srv/passwd.txt"));
      Exists (str "/srv/passwd.txt") true;
      Getsize (str "/srv/passwd.txt") (Return 4)]).
Proof. vm_compute. reflexivity. Qed.

(** Two calls with the same name: the second write is the one found. *)
Example run_overwrite :
  let '(r1, w1, _) :=
    save_text RefFS.os ROOT SCRIPT (Str (str "x")) (Some (str "report.txt"))
              RefFS.empty in
  let '(r2, w2, _) :=
    save_text RefFS.os ROOT SCRIPT (Str (str "y")) (Some (str "report.txt")) w1 in
  r1 = Return (success (str "/srv/report.txt") 1 (str "report.txt")) /\
  r2 = Return (success (str "/srv/report.txt") 1 (str "report.txt")) /\
  RefFS.content w2 (str "/srv/report.txt") = Some (str "y").
Proof. vm_compute. repeat split. Qed.

(** No filename: the name comes from the clock. *)
Example run_timestamp :
  fst (fst (save_text RefFS.os ROOT SCRIPT (Str (str "hello")) None RefFS.empty))
  = Return (success (str "/srv/2024-03-09-12-00-05.txt") 5
                    (str "2024-03-09-12-00-05.txt")).
Proof. vm_compute. reflexivity. Qed.

(** A lone surrogate cannot be encoded: the catch-all handler answers. *)
Example run_surrogate :
  let m :=
    Raw (str "'utf-8' codec can't encode character '\ud800' in position 0: surrogates not allowed") in
  save_text RefFS.os ROOT SCRIPT (Str [0xD800]) None RefFS.empty
  = (Return (error (Unexpected m)), RefFS.empty,
     [Log ERROR (UnexpectedErrorLogged m)]).
Proof. vm_compute. reflexivity. Qed.

(** Two surrogates in a row after eleven characters: the text of the
    error gives the first and the last position. *)
Example error_text_of_pair :
  Utf8.error_text (str "hello world" ++ [0xD83D; 0xDE00] ++ str "!")
  = str "'utf-8' codec can't encode characters in position 11-12: surrogates not allowed".
Proof. vm_compute. reflexivity. Qed.

(* ================================================================== *)
(** * Facts about strings and paths *)
(* ================================================================== *)

Section StringFacts.

Lemma startswith_nil (s : pystr) : startswith s [] = true.
Proof. now destruct s. Qed.

Lemma startswith_app (pre s : pystr) : startswith (pre ++ s) pre = true.
Proof.
  induction pre as [|p pre IH]; simpl; [now destruct s|].
  now rewrite N.eqb_refl, IH.
Qed.

Lemma startswith_length (s pre : pystr) :
  startswith s pre = true -> (length pre <= length s)%nat.
Proof.
  revert s; induction pre as [|p pre IH]; intros s H.
  - simpl. lia.
  - destruct s as [|c s]; simpl in H; [discriminate|].
    apply andb_prop in H as [_ H]. apply IH in H. simpl. lia.
Qed.

Lemma endswith_app (s suf : pystr) : endswith (s ++ suf) suf = true.
Proof. unfold endswith. rewrite rev_app_distr. apply startswith_app. Qed.

Lemma endswith_length (s suf : pystr) :
  endswith s suf = true -> (length suf <= length s)%nat.
Proof.
  unfold endswith. intros H. apply startswith_length in H.
  now rewrite !length_rev in H.
Qed.

Lemma startswith_app_right (s pre a : pystr) :
  startswith s pre = true -> startswith (s ++ a) pre = true.
Proof.
  revert s. induction pre as [|p pre IH]; intros s H.
  - now destruct (s ++ a).
  - destruct s as [|c s]; simpl in *; [discriminate|].
    apply andb_prop in H as [-> H]. simpl. now apply IH.
Qed.

Lemma endswith_app_left (a s suf : pystr) :
  endswith s suf = true -> endswith (a ++ s) suf = true.
Proof.
  unfold endswith. rewrite rev_app_distr. apply startswith_app_right.
Qed.

Lemma eqb_refl (s : pystr) : PyStr.eqb s s = true.
Proof. induction s; simpl; [reflexivity|]. now rewrite N.eqb_refl. Qed.

(** ['c' in s] looks at every character. *)
Lemma contains_char (c : char) (s : pystr) :
  contains [c] s = existsb (fun x => x =? c) s.
Proof.
  induction s as [|x s IH]; [reflexivity|].
  change (contains [c] (x :: s))
    with (((x =? c) && startswith s []) || contains [c] s).
  now rewrite IH, startswith_nil, andb_true_r.
Qed.

Lemma no_separator_app (s t : pystr) :
  no_separator (s ++ t) = no_separator s && no_separator t.
Proof. apply forallb_app. Qed.

Lemma no_separator_not_slash (s : pystr) :
  no_separator s = true -> forallb (fun c => negb (c =? SLASH)) s = true.
Proof.
  unfold no_separator, is_separator. rewrite !forallb_forall.
  intros H c Hc. specialize (H c Hc). now destruct (c =? SLASH).
Qed.

End StringFacts.

Section PathFacts.

Import PosixPath.

Lemma after_last_slash_plain (acc f : pystr) :
  forallb (fun c => negb (c =? SLASH)) f = true ->
  after_last_slash acc f = rev acc ++ f.
Proof.
  revert acc. induction f as [|c f IH]; intros acc H; simpl.
  - now rewrite app_nil_r.
  - simpl in H. apply andb_prop in H as [Hc Hf].
    destruct (c =? SLASH); [discriminate|].
    rewrite IH by assumption. simpl. now rewrite <- app_assoc.
Qed.

Lemma after_last_slash_skip (acc a f : pystr) :
  after_last_slash acc (a ++ SLASH :: f) = after_last_slash [] f.
Proof.
  revert acc. induction a as [|c a IH]; intros acc; simpl.
  - reflexivity.
  - destruct (c =? SLASH); apply IH.
Qed.

Lemma after_last_slash_clean (acc p : pystr) :
  forallb (fun c => negb (c =? SLASH)) acc = true ->
  forallb (fun c => negb (c =? SLASH)) (after_last_slash acc p) = true.
Proof.
  revert acc. induction p as [|c p IH]; intros acc H; simpl.
  - rewrite forallb_forall in *. intros x Hx. apply H. now apply in_rev.
  - destruct (c =? SLASH) eqn:E.
    + now apply IH.
    + apply IH. simpl. now rewrite E.
Qed.

(** The final component holds no slash. *)
Lemma basename_no_slash (p : pystr) :
  forallb (fun c => negb (c =? SLASH)) (basename p) = true.
Proof. now apply after_last_slash_clean. Qed.

(** A name without a slash is its own final component. *)
Lemma basename_plain (f : pystr) :
  forallb (fun c => negb (c =? SLASH)) f = true -> basename f = f.
Proof. intros H. unfold basename. now rewrite after_last_slash_plain. Qed.

Lemma basename_after_slash (a f : pystr) :
  forallb (fun c => negb (c =? SLASH)) f = true ->
  basename (a ++ SLASH :: f) = f.
Proof.
  intros H. unfold basename. rewrite after_last_slash_skip.
  now rewrite after_last_slash_plain.
Qed.

Lemma endswith_slash_split (a : pystr) :
  endswith a [SLASH] = true -> exists a', a = a' ++ [SLASH].
Proof.
  unfold endswith. change (rev [SLASH]) with [SLASH].
  destruct (rev a) as [|c r] eqn:E; [discriminate|].
  change (startswith (c :: r) [SLASH]) with ((c =? SLASH) && startswith r []).
  intros H. rewrite startswith_nil, andb_true_r in H.
  apply N.eqb_eq in H. subst c.
  exists (rev r). rewrite <- (rev_involutive a), E. reflexivity.
Qed.

(** Joining a directory with a name that holds no slash puts the name
    right under the directory. *)
Lemma join_plain (root name : pystr) :
  name <> [] ->
  forallb (fun c => negb (c =? SLASH)) name = true ->
  (join root name = root ++ name /\
     (root = [] \/ exists r, root = r ++ [SLASH])
   \/ join root name = root ++ [SLASH] ++ name)
  /\ basename (join root name) = name.
Proof.
  intros Hne Hname. unfold join.
  assert (Hs : startswith name [SLASH] = false).
  { destruct name as [|c name]; [congruence|]. simpl in *.
    apply andb_prop in Hname as [Hc _].
    destruct (c =? SLASH); [discriminate|reflexivity]. }
  rewrite Hs.
  destruct root as [|c root]; simpl.
  - split; [left; auto | now apply basename_plain].
  - destruct (endswith (c :: root) [SLASH]) eqn:E.
    + apply endswith_slash_split in E as [r Hr].
      split.
      * left. split; [reflexivity|]. right. now exists r.
      * change (c :: root ++ name) with ((c :: root) ++ name).
        rewrite Hr, <- app_assoc. simpl. now apply basename_after_slash.
    + split; [now right|].
      change (c :: root ++ SLASH :: name) with ((c :: root) ++ SLASH :: name).
      now apply basename_after_slash.
Qed.

End PathFacts.

(* ================================================================== *)
(** * The pattern *)
(* ================================================================== *)

Section PatternFacts.

Lemma alnum_ranges (c : char) :
  Re.in_class ALNUM c = true <->
  (97 <= c <= 122 \/ 65 <= c <= 90 \/ 48 <= c <= 57).
Proof.
  unfold Re.in_class, ALNUM. simpl.
  change (cp "a") with 97; change (cp "z") with 122;
  change (cp "A") with 65; change (cp "Z") with 90;
  change (cp "0") with 48; change (cp "9") with 57.
  rewrite orb_false_r, !orb_true_iff, !andb_true_iff, !N.leb_le. tauto.
Qed.

Lemma safe_chars_ranges (c : char) :
  Re.in_class SAFE_CHARS c = true <->
  (Re.in_class ALNUM c = true \/ c = UNDERSCORE \/ c = HYPHEN \/ c = DOT).
Proof.
  unfold SAFE_CHARS, Re.in_class. rewrite existsb_app. simpl.
  rewrite orb_false_r, !orb_true_iff, !andb_true_iff, !N.leb_le.
  intuition lia.
Qed.

Lemma alnum_not_separator (c : char) :
  Re.in_class ALNUM c = true -> is_separator c = false.
Proof.
  rewrite alnum_ranges. unfold is_separator.
  change SLASH with 47; change BACKSLASH with 92.
  intros H. apply orb_false_iff. rewrite !N.eqb_neq. lia.
Qed.

Lemma alnum_not_underscore : Re.in_class ALNUM UNDERSCORE = false.
Proof. reflexivity. Qed.

(** How the star of the pattern unfolds on a non-empty text. *)
Lemma star_cons (cls : Re.cclass) (p : Re.pattern) (bos : bool) (c : char)
      (rest : pystr) :
  Re.matches_at (Re.StarCls cls :: p) bos (c :: rest)
  = (Re.in_class cls c && Re.matches_at (Re.StarCls cls :: p) false rest)
    || Re.matches_at p bos (c :: rest).
Proof. reflexivity. Qed.

Lemma star_nil (cls : Re.cclass) (p : Re.pattern) (bos : bool) :
  Re.matches_at (Re.StarCls cls :: p) bos [] = Re.matches_at p bos [].
Proof. reflexivity. Qed.

(** [[...]*$] matches a run of characters of the class, followed by the
    end of the text or by one last line feed. *)
Lemma star_eol_spec (cls : Re.cclass) (bos : bool) (rest : pystr) :
  Re.matches_at [Re.StarCls cls; Re.Eol] bos rest = true <->
  exists body tail,
    rest = body ++ tail /\ forallb (Re.in_class cls) body = true /\
    (tail = [] \/ tail = [LF]).
Proof.
  revert bos. induction rest as [|c rest IH]; intros bos.
  - rewrite star_nil. simpl. split; [|reflexivity].
    intros _. exists [], []. auto.
  - rewrite star_cons, orb_true_iff, andb_true_iff, IH. split.
    + intros [[Hc (body & tail & -> & Hb & Ht)] | H].
      * exists (c :: body), tail. simpl. now rewrite Hc, Hb.
      * simpl in H. rewrite andb_true_r in H.
        destruct rest; [|discriminate].
        apply N.eqb_eq in H. subst c. exists [], [LF]. auto.
    + intros (body & tail & E & Hb & Ht).
      destruct body as [|b body].
      * right. simpl in E. subst tail. destruct Ht as [Ht|Ht]; [discriminate|].
        injection Ht as -> ->. reflexivity.
      * left. simpl in E. injection E as -> ->. simpl in Hb.
        apply andb_prop in Hb as [Hc Hb]. split; [assumption|].
        exists body, tail. auto.
Qed.

(** What [SAFE_FILENAME_PATTERN.match] accepts. *)
Lemma pattern_spec (s : pystr) :
  Re.match_ SAFE_FILENAME_PATTERN s = true <->
  exists c body tail,
    s = c :: body ++ tail /\ Re.in_class ALNUM c = true /\
    forallb (Re.in_class SAFE_CHARS) body = true /\
    (tail = [] \/ tail = [LF]).
Proof.
  unfold Re.match_, SAFE_FILENAME_PATTERN.
  destruct s as [|c s].
  - simpl. split; [discriminate|]. intros (c & b & t & E & _). discriminate.
  - change (Re.matches_at [Re.Bol; Re.Cls ALNUM; Re.StarCls SAFE_CHARS; Re.Eol]
                          true (c :: s))
      with (true && (Re.in_class ALNUM c
                     && Re.matches_at [Re.StarCls SAFE_CHARS; Re.Eol] false s)).
    rewrite andb_true_l, andb_true_iff, star_eol_spec. split.
    + intros [Hc (body & tail & -> & Hb & Ht)]. now exists c, body, tail.
    + intros (c' & body & tail & E & Hc & Hb & Ht). injection E as -> ->.
      split; [assumption|]. now exists body, tail.
Qed.

(** On one character the pattern accepts the letters and digits only:
    the class of the first position decides. *)
Lemma pattern_single (c : char) :
  Re.match_ SAFE_FILENAME_PATTERN [c] = Re.in_class ALNUM c.
Proof.
  unfold Re.match_, SAFE_FILENAME_PATTERN.
  change (Re.matches_at [Re.Bol; Re.Cls ALNUM; Re.StarCls SAFE_CHARS; Re.Eol]
                        true [c])
    with (true && (Re.in_class ALNUM c && true)).
  now rewrite andb_true_l, andb_true_r.
Qed.

End PatternFacts.

(* ================================================================== *)
(** * [validate_filename] *)
(* ================================================================== *)

Section ValidateFacts.

(** What [validate_filename] accepts: no leading slash, no two dots in a
    row, no separator, a letter or digit first, then characters of the
    safe class, and possibly one line feed at the very end. *)
Theorem validate_filename_spec (f : pystr) :
  validate_filename f = true <->
  PosixPath.isabs f = false /\
  contains (str "..") f = false /\
  contains (str "/") f = false /\
  contains (str "\") f = false /\
  exists c body tail,
    f = c :: body ++ tail /\ Re.in_class ALNUM c = true /\
    forallb (Re.in_class SAFE_CHARS) body = true /\
    (tail = [] \/ tail = [LF]).
Proof.
  unfold validate_filename. rewrite <- pattern_spec.
  destruct (PosixPath.isabs f), (contains (str "..") f),
    (contains (str "/") f), (contains (str "\") f); simpl;
    intuition discriminate.
Qed.

(** Names with a separator, with two dots in a row or with a leading
    slash are refused. *)
Theorem validate_filename_rejects (f : pystr) :
  contains (str "/") f = true \/ contains (str "\") f = true \/
  contains (str "..") f = true \/ PosixPath.isabs f = true ->
  validate_filename f = false.
Proof.
  unfold validate_filename.
  intros [H | [H | [H | H]]]; rewrite H; now rewrite ?orb_true_r.
Qed.

(** An accepted name holds no separator. *)
Lemma validate_no_separator (f : pystr) :
  validate_filename f = true -> no_separator f = true.
Proof.
  rewrite validate_filename_spec. intros (_ & _ & Hs & Hb & _).
  change (str "/") with [SLASH] in Hs. change (str "\") with [BACKSLASH] in Hb.
  rewrite contains_char in Hs, Hb.
  unfold no_separator, is_separator. apply forallb_forall. intros c Hc.
  apply negb_true_iff, orb_false_iff. split.
  - destruct (c =? SLASH) eqn:E; [|reflexivity].
    rewrite <- Hs. symmetry. apply existsb_exists. now exists c.
  - destruct (c =? BACKSLASH) eqn:E; [|reflexivity].
    rewrite <- Hb. symmetry. apply existsb_exists. now exists c.
Qed.

End ValidateFacts.

(* ================================================================== *)
(** * [sanitize_path] *)
(* ================================================================== *)

Section SanitizeFacts.

(** [sanitize_path] keeps the letters and digits of the final component
    and writes an underscore for every other character. *)
Lemma sanitize_path_unfold (f : pystr) :
  sanitize_path f =
  match PosixPath.basename f with
  | [] => str "file.txt"
  | b => map keep_or_underscore b
  end.
Proof.
  unfold sanitize_path.
  assert (E : map (fun c => if Re.match_ SAFE_FILENAME_PATTERN [c]
                            then c else UNDERSCORE) (PosixPath.basename f)
              = map keep_or_underscore (PosixPath.basename f)).
  { apply map_ext. intros c. unfold keep_or_underscore.
    now rewrite pattern_single. }
  rewrite E. now destruct (PosixPath.basename f).
Qed.

Lemma keep_or_underscore_not_separator (c : char) :
  is_separator (keep_or_underscore c) = false.
Proof.
  unfold keep_or_underscore. destruct (Re.in_class ALNUM c) eqn:E.
  - now apply alnum_not_separator.
  - reflexivity.
Qed.

Lemma keep_or_underscore_twice (c : char) :
  keep_or_underscore (keep_or_underscore c) = keep_or_underscore c.
Proof.
  assert (H : keep_or_underscore c = c \/ keep_or_underscore c = UNDERSCORE).
  { unfold keep_or_underscore. destruct (Re.in_class ALNUM c); auto. }
  destruct H as [H | H]; rewrite H; [assumption | reflexivity].
Qed.

Lemma sanitized_no_separator (b : pystr) :
  no_separator (map keep_or_underscore b) = true.
Proof.
  unfold no_separator. apply forallb_forall. intros c Hc.
  apply in_map_iff in Hc as (x & <- & _).
  now rewrite keep_or_underscore_not_separator.
Qed.

(** The result is never empty. *)
Theorem sanitize_path_not_empty (f : pystr) : sanitize_path f <> [].
Proof.
  rewrite sanitize_path_unfold.
  destruct (PosixPath.basename f); discriminate.
Qed.

(** The result holds no separator. *)
Theorem sanitize_path_no_separator (f : pystr) :
  no_separator (sanitize_path f) = true.
Proof.
  rewrite sanitize_path_unfold.
  destruct (PosixPath.basename f) as [|c b]; [reflexivity|].
  apply sanitized_no_separator.
Qed.

(** Every character of the result is a letter, a digit or an underscore,
    unless the result is the fallback name. *)
Theorem sanitize_path_chars (f : pystr) :
  sanitize_path f = str "file.txt" \/
  forallb (fun c => Re.in_class ALNUM c || (c =? UNDERSCORE))
          (sanitize_path f) = true.
Proof.
  rewrite sanitize_path_unfold.
  destruct (PosixPath.basename f) as [|c b]; [now left|right].
  apply forallb_forall. intros x Hx. apply in_map_iff in Hx as (y & <- & _).
  unfold keep_or_underscore. destruct (Re.in_class ALNUM y) eqn:E.
  - now rewrite E.
  - now rewrite N.eqb_refl, orb_true_r.
Qed.

(** X3. A second pass changes nothing when the final component of the
    input is not empty. *)
Theorem sanitize_path_twice (f : pystr) :
  PosixPath.basename f <> [] ->
  sanitize_path (sanitize_path f) = sanitize_path f.
Proof.
  intros Hne. rewrite (sanitize_path_unfold f).
  destruct (PosixPath.basename f) as [|c b] eqn:E; [congruence|].
  rewrite sanitize_path_unfold.
  rewrite basename_plain.
  - simpl. now rewrite !keep_or_underscore_twice, map_map,
      (map_ext _ _ keep_or_underscore_twice).
  - apply no_separator_not_slash, sanitized_no_separator.
Qed.

Lemma sanitize_path_twice_witness :
  PosixPath.basename (str "../../etc/passwd") <> [] /\
  sanitize_path (sanitize_path (str "../../etc/passwd"))
  = sanitize_path (str "../../etc/passwd").
Proof.
  split; [discriminate|]. apply sanitize_path_twice. discriminate.
Defined.

(** C2. [sanitize_path] is not idempotent on an input whose final
    component is empty, such as [dir/] or the empty string: the first
    pass answers the fallback name [file.txt], and the second pass writes
    an underscore for the dot of that name. *)
Theorem sanitize_path_twice_on_empty :
  sanitize_path (str "dir/") = str "file.txt" /\
  sanitize_path (sanitize_path (str "dir/")) = str "file_txt" /\
  sanitize_path (sanitize_path (str "dir/")) <> sanitize_path (str "dir/") /\
  sanitize_path (sanitize_path []) <> sanitize_path [].
Proof. repeat split; discriminate. Qed.

(** C3. [sanitize_path] writes an underscore for the dot and for the
    hyphen as well, although both belong to the class of safe characters,
    and keeps the underscore. *)
Theorem sanitize_path_replaces_safe_chars :
  sanitize_path (str "my file-1.txt") = str "my_file_1_txt" /\
  Re.in_class SAFE_CHARS DOT = true /\
  Re.in_class SAFE_CHARS HYPHEN = true.
Proof. repeat split. Qed.

(** C4. [validate_filename] accepts a name that ends in a line feed,
    although the line feed is not in the class of safe characters. *)
Theorem validate_filename_accepts_final_newline :
  validate_filename (str "report" ++ [LF]) = true /\
  Re.in_class SAFE_CHARS LF = false.
Proof. split; reflexivity. Qed.

End SanitizeFacts.

(* ================================================================== *)
(** * Every call of [save_text] is one of the runs *)
(* ================================================================== *)

(** On POSIX the translation of line feeds changes nothing. *)
Lemma translate_newlines_posix (text : pystr) : translate_newlines text = text.
Proof.
  unfold translate_newlines. induction text as [|c text IH]; [reflexivity|].
  simpl. rewrite IH. destruct (c =? LF) eqn:E; [|reflexivity].
  apply N.eqb_eq in E. now subst c.
Qed.

Section Soundness.

Context {W : Type}.
Variable os : OS W.
Variables root script : pystr.

Lemma choose_filename_run (filename : option pystr) (w : W) :
  choose_filename os filename w
  = (Return (chosen_name os filename w), w, choice_trace os filename w).
Proof.
  unfold choose_filename, chosen_name, choice_trace.
  destruct filename as [[|c f]|]; try reflexivity.
  unfold_monad. now destruct (validate_filename (c :: f)).
Qed.

Lemma verify_run (t name p : pystr) (w2 : W) :
  exists r tr,
    verify os t p name w2 = (r, w2, tr) /\ Verified os t name p w2 r tr.
Proof.
  unfold verify. unfold_monad.
  destruct (os_abspath os p w2) as [abs_path|e] eqn:Ea.
  2: { eexists _, _. split; [reflexivity | now constructor]. }
  destruct (os_exists os p w2) eqn:Ee; cbn [negb].
  2: { eexists _, _. split; [reflexivity | now constructor]. }
  destruct (os_getsize os p w2) as [file_size|e] eqn:Es.
  2: { eexists _, _. split; [reflexivity | now constructor]. }
  destruct (file_size =? 0) eqn:Ez; cbn [andb].
  - apply N.eqb_eq in Ez. subst file_size.
    destruct t as [|c t].
    + eexists _, _. split; [reflexivity | constructor; auto].
    + eexists _, _. split; [reflexivity | constructor; auto; discriminate].
  - apply N.eqb_neq in Ez.
    eexists _, _. split; [reflexivity | constructor; auto].
Qed.

Lemma write_run (t : pystr) (data : Utf8.bytes) (p : pystr) (w1 : W) :
  Utf8.encode t = Some data ->
  write os p t w1
  = (fst (os_write os p data w1), snd (os_write os p data w1),
     [Write p data (fst (os_write os p data w1))]).
Proof.
  intros E. unfold write. rewrite translate_newlines_posix.
  unfold_monad. rewrite E. now destruct (os_write os p data w1).
Qed.

Lemma written_run (t : pystr) (data : Utf8.bytes) (name p : pystr) (w1 : W) :
  Utf8.encode t = Some data ->
  exists r w2 tr,
    (written <- attempt (write os p t) ;;
     match written with
     | Raise (Exn PermissionError _) => ret (error (NoWritePermission name))
     | Raise (Exn OSError detail) => ret (error (IOErrorWhileWriting detail))
     | Raise e => raise e
     | Return _ => verify os t p name
     end) w1 = (r, w2, tr)
    /\ Written os t data name p w1 r w2 tr.
Proof.
  intros E. unfold bind at 1. unfold attempt. rewrite (write_run _ _ _ _ E).
  destruct (os_write os p data w1) as [[[]|[cls m]] w2] eqn:Ew; cbn [fst snd].
  - destruct (verify_run t name p w2) as (r & tr & Hv & HV). rewrite Hv.
    eexists _, _, _. split; [reflexivity | now constructor].
  - destruct cls; unfold_monad;
      (eexists _, _, _; split;
       [reflexivity
       | (now apply WriteDenied) || (now apply WriteFails)
         || (now apply WriteRaises)]).
Qed.

Lemma storing_run (t : pystr) (data : Utf8.bytes) (name : pystr) (w : W) :
  Utf8.encode t = Some data ->
  exists r w' tr,
    (mkdir os root ;;
     let filepath := PosixPath.join root name in
     cwd <- getcwd os ;;
     log INFO (WorkingDirectory cwd) ;;
     script_abs <- abspath os script ;;
     log INFO (ScriptDirectory (PosixPath.dirname script_abs)) ;;
     log INFO (SaveTarget filepath) ;;
     written <- attempt (write os filepath t) ;;
     match written with
     | Raise (Exn PermissionError _) => ret (error (NoWritePermission name))
     | Raise (Exn OSError detail) => ret (error (IOErrorWhileWriting detail))
     | Raise e => raise e
     | Return _ => verify os t filepath name
     end) w = (r, w', tr)
    /\ Storing os root script t data name (PosixPath.join root name) w r w' tr.
Proof.
  intros E. cbv zeta.
  unfold bind at 1. unfold mkdir, changing.
  destruct (os_mkdir os root w) as [[[]|e] w1] eqn:Em.
  2: { eexists _, _, _. split; [reflexivity | now constructor]. }
  unfold bind at 1. unfold getcwd, reading.
  destruct (os_getcwd os w1) as [cwd|e] eqn:Ec.
  2: { eexists _, _, _. split; [reflexivity | now constructor]. }
  unfold bind at 1. unfold log at 1.
  unfold bind at 1. unfold abspath at 1. unfold reading.
  destruct (os_abspath os script w1) as [script_abs|e] eqn:Ea.
  2: { eexists _, _, _. split; [reflexivity | now econstructor]. }
  unfold bind at 1. unfold log at 1.
  unfold bind at 1. unfold log at 1.
  destruct (written_run t data name (PosixPath.join root name) w1 E)
    as (r & w2 & tr & Hw & HW).
  rewrite Hw.
  eexists _, _, _. split; [reflexivity|].
  now apply (Prepared os root script t data name _ w w1 cwd script_abs r w2 tr).
Qed.

Lemma body_run (text : pyobj) (filename : option pystr) (w : W) :
  exists r w' tr,
    save_text_body os root script text filename w = (r, w', tr)
    /\ Body os root script text filename w r w' tr.
Proof.
  unfold save_text_body. destruct text as [t|].
  2: { eexists _, _, _. split; [reflexivity | now constructor]. }
  unfold bind at 1. unfold encode.
  destruct (Utf8.encode t) as [data|] eqn:E.
  2: { eexists _, _, _. split; [reflexivity | eapply Unencodable; [reflexivity | exact E]]. }
  unfold ret at 1.
  destruct (MAX_TEXT_SIZE <? Utf8.len data) eqn:El.
  - apply N.ltb_lt in El.
    eexists _, _, _. split; [reflexivity | eapply TooLarge; [reflexivity | exact E | exact El]].
  - apply N.ltb_ge in El.
    unfold bind at 1. rewrite choose_filename_run.
    destruct (storing_run t data (final_name os filename w) w E)
      as (r & w' & tr & Hs & HS).
    unfold final_name in Hs. rewrite Hs.
    eexists _, _, _. split; [reflexivity|].
    eapply Stored; [reflexivity | exact E | exact El | exact HS].
Qed.

(** [save_text] always returns a mapping, and the call is one of the
    runs. *)
Lemma save_text_run (text : pyobj) (filename : option pystr) (w : W) :
  exists d w' tr,
    save_text os root script text filename w = (Return d, w', tr)
    /\ Run os root script text filename w d w' tr.
Proof.
  unfold save_text. unfold bind, attempt.
  destruct (body_run text filename w) as (r & w' & tr & Hb & HB).
  rewrite Hb. destruct r as [d|[cls m]].
  - eexists _, _, _. split; [unfold ret; now rewrite app_nil_r|].
    now constructor.
  - eexists _, _, _.
    split; [|apply (Handled os root script text filename w _ w' tr HB)].
    destruct cls; reflexivity.
Qed.

End Soundness.

(* ================================================================== *)
(** * The name of the file *)
(* ================================================================== *)

Section NameFacts.

Lemma digit_is_digit (n : N) : is_digit (digit n) = true.
Proof.
  unfold is_digit, digit. change (cp "0") with 48. change (cp "9") with 57.
  apply andb_true_iff. rewrite !N.leb_le.
  assert (H : n mod 10 < 10) by (apply N.mod_upper_bound; lia).
  revert H. generalize (n mod 10). intros m H. lia.
Qed.

Lemma is_digit_not_separator (c : char) :
  is_digit c = true -> is_separator c = false.
Proof.
  unfold is_digit, is_separator.
  change (cp "0") with 48. change (cp "9") with 57.
  change SLASH with 47. change BACKSLASH with 92.
  rewrite andb_true_iff, !N.leb_le, orb_false_iff, !N.eqb_neq. lia.
Qed.

(** A name of the form has no separator. *)
Lemma fits_timestamp_no_separator (s : pystr) :
  fits TIMESTAMP_NAME s = true -> no_separator s = true.
Proof.
  unfold TIMESTAMP_NAME. intros H.
  repeat (destruct s as [|? s]; [discriminate H|];
          cbn [fits] in H; apply andb_prop in H as [? H]).
  destruct s; [|discriminate H].
  unfold no_separator. cbn [forallb].
  repeat match goal with
         | E : is_digit ?c = true |- _ =>
             rewrite (is_digit_not_separator c E); clear E
         | E : (?c =? ?l) = true |- _ =>
             apply N.eqb_eq in E; subst c
         end.
  reflexivity.
Qed.

(** A generated name is [YYYY-MM-DD-HH-MM-SS.txt]. *)
Lemma strftime_form (d : datetime) :
  fits TIMESTAMP_NAME (strftime d ++ str ".txt") = true.
Proof.
  unfold strftime, four_digits, two_digits, TIMESTAMP_NAME.
  cbn [app fits]. rewrite !digit_is_digit. reflexivity.
Qed.

Lemma ensure_txt_cases (f : pystr) :
  endswith f (str ".txt") = true /\ ensure_txt f = f
  \/ endswith f (str ".txt") = false /\ ensure_txt f = f ++ str ".txt".
Proof.
  unfold ensure_txt. destruct (endswith f (str ".txt")); simpl; auto.
Qed.

(** Lines 179-181: the name ends in [.txt] afterwards. *)
Lemma ensure_txt_endswith (f : pystr) :
  endswith (ensure_txt f) (str ".txt") = true.
Proof.
  destruct (ensure_txt_cases f) as [[H ->] | [_ ->]];
    [assumption | apply endswith_app].
Qed.

Lemma ensure_txt_no_separator (f : pystr) :
  no_separator f = true -> no_separator (ensure_txt f) = true.
Proof.
  intros H. destruct (ensure_txt_cases f) as [[_ ->] | [_ ->]];
    [assumption|].
  rewrite no_separator_app, H. reflexivity.
Qed.

Lemma ensure_txt_long (f : pystr) : (4 <= length (ensure_txt f))%nat.
Proof. apply (endswith_length _ _ (ensure_txt_endswith f)). Qed.

Context {W : Type}.
Variable os : OS W.

Lemma chosen_name_no_separator (filename : option pystr) (w : W) :
  no_separator (chosen_name os filename w) = true.
Proof.
  unfold chosen_name. destruct filename as [[|c f]|].
  - apply fits_timestamp_no_separator, strftime_form.
  - destruct (validate_filename (c :: f)) eqn:E.
    + now apply validate_no_separator.
    + apply sanitize_path_no_separator.
  - apply fits_timestamp_no_separator, strftime_form.
Qed.

(** The name the file is written under ends in [.txt]. *)
Lemma final_name_endswith (filename : option pystr) (w : W) :
  endswith (final_name os filename w) (str ".txt") = true.
Proof. apply ensure_txt_endswith. Qed.

(** It holds no separator, and it is neither empty nor [.] nor [..]. *)
Lemma final_name_no_separator (filename : option pystr) (w : W) :
  no_separator (final_name os filename w) = true.
Proof. apply ensure_txt_no_separator, chosen_name_no_separator. Qed.

Lemma final_name_proper (filename : option pystr) (w : W) :
  final_name os filename w <> [] /\
  final_name os filename w <> str "." /\
  final_name os filename w <> str "..".
Proof.
  pose proof (ensure_txt_long (chosen_name os filename w)) as H.
  unfold final_name.
  repeat split; intros E; rewrite E in H; simpl in H; lia.
Qed.

(** The path written to is the name right under the root. *)
Lemma target_under_root (root : pystr) (filename : option pystr) (w : W) :
  (target os root filename w = root ++ [SLASH] ++ final_name os filename w
   \/ target os root filename w = root ++ final_name os filename w /\
      (root = [] \/ exists r, root = r ++ [SLASH]))
  /\ PosixPath.basename (target os root filename w) = final_name os filename w.
Proof.
  unfold target.
  destruct (join_plain root (final_name os filename w)) as [H Hb].
  - apply final_name_proper.
  - apply no_separator_not_slash, final_name_no_separator.
  - split; [tauto | assumption].
Qed.

Lemma target_endswith (root : pystr) (filename : option pystr) (w : W) :
  endswith (target os root filename w) (str ".txt") = true.
Proof.
  destruct (target_under_root root filename w) as [[-> | [-> _]] _].
  - rewrite app_assoc. apply endswith_app_left, final_name_endswith.
  - apply endswith_app_left, final_name_endswith.
Qed.

End NameFacts.

(* ================================================================== *)
(** * What the traces hold *)
(* ================================================================== *)

Section TraceFacts.

Lemma writes_app (t1 t2 : list event) :
  writes (t1 ++ t2) = writes t1 ++ writes t2.
Proof.
  induction t1 as [|e t1 IH]; [reflexivity|].
  destruct e; simpl; now rewrite ?IH.
Qed.

Lemma in_writes (p : pystr) (data : Utf8.bytes) (res : outcome unit)
      (tr : list event) :
  In (Write p data res) tr -> In (p, data) (writes tr).
Proof.
  induction tr as [|e tr IH]; [contradiction|].
  intros [-> | H].
  - now left.
  - destruct e; simpl; auto.
Qed.

Lemma writes_logged (e : exn) : writes [logged e] = [].
Proof. now destruct e as [[] m]. Qed.

Context {W : Type}.
Variable os : OS W.

Lemma writes_choice_trace (filename : option pystr) (w : W) :
  writes (choice_trace os filename w) = [].
Proof.
  unfold choice_trace. destruct filename as [[|c f]|]; try reflexivity.
  now destruct (validate_filename (c :: f)).
Qed.

Variables root script : pystr.

Lemma verified_writes t name p w2 r tr :
  Verified os t name p w2 r tr -> writes tr = [].
Proof. now destruct 1. Qed.

Lemma written_writes t data name p w1 r w2 tr :
  Written os t data name p w1 r w2 tr -> writes tr = [(p, data)].
Proof.
  destruct 1 as [| | |w2 r tr Hw Hv]; try reflexivity.
  simpl. now rewrite (verified_writes _ _ _ _ _ _ Hv).
Qed.

Lemma storing_writes t data name p w r w' tr :
  Storing os root script t data name p w r w' tr ->
  writes tr = [] \/ writes tr = [(p, data)].
Proof.
  destruct 1 as [| | |w1 cwd sa r w2 tr _ _ _ Hw]; auto.
  right. rewrite writes_app. simpl. now apply written_writes in Hw.
Qed.

Lemma body_writes text filename w r w' tr :
  Body os root script text filename w r w' tr ->
  writes tr = [] \/
  exists t data,
    text = Str t /\ Utf8.encode t = Some data /\
    Utf8.len data <= MAX_TEXT_SIZE /\
    writes tr = [(target os root filename w, data)].
Proof.
  destruct 1 as [| | |t data r w' tr Ht Hd Hl Hs]; auto.
  rewrite writes_app, writes_choice_trace. simpl.
  apply storing_writes in Hs as [Hs | Hs]; [now left | right].
  now exists t, data.
Qed.

(** A call writes at most once: the encoded text, to the target. *)
Lemma run_writes text filename w d w' tr :
  Run os root script text filename w d w' tr ->
  writes tr = [] \/
  exists t data,
    text = Str t /\ Utf8.encode t = Some data /\
    Utf8.len data <= MAX_TEXT_SIZE /\
    writes tr = [(target os root filename w, data)].
Proof.
  destruct 1 as [d w' tr Hb | e w' tr Hb].
  - now apply body_writes in Hb.
  - rewrite writes_app, writes_logged, app_nil_r.
    now apply body_writes in Hb.
Qed.

(** What a call that answered says about the call. *)
Lemma save_text_inv text filename w r w' tr :
  save_text os root script text filename w = (r, w', tr) ->
  exists d, r = Return d /\ Run os root script text filename w d w' tr.
Proof.
  intros H.
  destruct (save_text_run os root script text filename w)
    as (d & w1 & tr1 & E & HR).
  rewrite E in H. injection H as <- <- <-. now exists d.
Qed.

End TraceFacts.

(* ================================================================== *)
(** * The checks after the write *)
(* ================================================================== *)

Section CheckFacts.

Lemma checks_app (t1 t2 : list event) :
  checks (t1 ++ t2) = checks t1 ++ checks t2.
Proof. apply filter_app. Qed.

Lemma in_checks (e : event) (tr : list event) :
  is_check e = true -> In e tr -> In e (checks tr).
Proof. intros He Hin. apply filter_In. now split. Qed.

Lemma checks_logged (e : exn) : checks [logged e] = [].
Proof. now destruct e as [[] m]. Qed.

Lemma answer_is_error (e : exn) : exists m, answer e = error m.
Proof. destruct e as [[] m]; simpl; eauto. Qed.

Context {W : Type}.
Variable os : OS W.
Variables root script : pystr.

Lemma checks_choice_trace (filename : option pystr) (w : W) :
  checks (choice_trace os filename w) = [].
Proof.
  unfold choice_trace. destruct filename as [[|c f]|]; try reflexivity.
  now destruct (validate_filename (c :: f)).
Qed.

(** A call either answers a failure without having checked anything, or
    it wrote the encoded text to the target, the write returned, and the
    checks were made on the state the write left. *)
Lemma body_cases text filename w r w' tr :
  Body os root script text filename w r w' tr ->
  (checks tr = [] /\
   ((exists m, r = Return (error m)) \/ exists e, r = Raise e))
  \/
  exists t data w1 vtr,
    text = Str t /\ Utf8.encode t = Some data /\
    Utf8.len data <= MAX_TEXT_SIZE /\
    os_write os (target os root filename w) data w1 = (Return tt, w') /\
    Verified os t (final_name os filename w) (target os root filename w)
             w' r vtr /\
    checks tr = checks vtr /\
    In (Write (target os root filename w) data (Return tt)) tr.
Proof.
  destruct 1 as [| | |t data r w' tr Ht Hd Hl Hs].
  - left. eauto.
  - left. eauto.
  - left. eauto.
  - rewrite checks_app, checks_choice_trace. simpl.
    destruct Hs as [| | |w1 cwd sa r w2 tr _ _ _ Hw]; try solve [left; eauto].
    destruct Hw as [| | |w2 r tr Hw Hv]; try solve [left; eauto].
    right. exists t, data, w1, tr. repeat split; try assumption.
    apply in_or_app. right. apply in_or_app. right. now left.
Qed.

Lemma run_cases text filename w d w' tr :
  Run os root script text filename w d w' tr ->
  (checks tr = [] /\ exists m, d = error m)
  \/
  exists t data w1 r vtr,
    text = Str t /\ Utf8.encode t = Some data /\
    Utf8.len data <= MAX_TEXT_SIZE /\
    os_write os (target os root filename w) data w1 = (Return tt, w') /\
    Verified os t (final_name os filename w) (target os root filename w)
             w' r vtr /\
    checks tr = checks vtr /\
    In (Write (target os root filename w) data (Return tt)) tr /\
    (r = Return d \/ exists e, r = Raise e /\ d = answer e).
Proof.
  destruct 1 as [d w' tr Hb | e w' tr Hb];
    apply body_cases in Hb
      as [[Hc Hr] | (t & data & w1 & vtr & Ht & Hd & Hl & Hw & Hv & Hc & Hi)].
  - left. split; [assumption|].
    destruct Hr as [[m Hm] | [e He]]; [|discriminate].
    injection Hm as ->. eauto.
  - right. exists t, data, w1, (Return d), vtr. repeat split; auto.
  - left. rewrite checks_app, checks_logged, app_nil_r.
    split; [assumption | apply answer_is_error].
  - right. exists t, data, w1, (Raise e), vtr.
    rewrite checks_app, checks_logged, app_nil_r.
    repeat split; eauto. apply in_or_app. now left.
Qed.

(** What the checks say about the answer. *)
Lemma verified_checks t name p w2 r tr :
  Verified os t name p w2 r tr ->
  (forall e, In e (checks tr) ->
     (exists b, e = Exists p b) \/ (exists s, e = Getsize p s)) /\
  (forall q, In (Exists q false) (checks tr) ->
     exists abs_path, r = Return (error (NotCreated abs_path))) /\
  (forall q, In (Getsize q (Return 0)) (checks tr) -> t <> [] ->
     exists abs_path, r = Return (error (CreatedButEmpty abs_path))) /\
  (forall abs_path file_size name',
     r = Return (success abs_path file_size name') ->
     name' = name /\ os_abspath os p w2 = Return abs_path /\
     os_exists os p w2 = true /\ os_getsize os p w2 = Return file_size /\
     (file_size <> 0 \/ t = [])).
Proof.
  destruct 1 as [e Ha | a Ha He | a e Ha He Hs | a Ha He Hs Ht
                | a size Ha He Hs Ht]; cbn [checks filter is_check].
  - repeat split; try contradiction; discriminate.
  - repeat split; try discriminate.
    + intros e [<- | []]. eauto.
    + eauto.
    + intros q [E | []]. discriminate.
  - repeat split; try discriminate.
    + intros x [<- | [<- | []]]; eauto.
    + intros q [E | [E | []]]; discriminate.
    + intros q [E | [E | []]]; discriminate.
  - repeat split; try discriminate.
    + intros x [<- | [<- | []]]; eauto.
    + intros q [E | [E | []]]; discriminate.
    + eauto.
  - split; [|split; [|split]].
    + intros x [<- | [<- | []]]; eauto.
    + intros q [E | [E | []]]; discriminate.
    + intros q [E | [E | []]] Hne; try discriminate.
      injection E as _ ->. destruct Ht; congruence.
    + intros abs_path file_size name' E. unfold success in E.
      inversion E; subst. auto.
Qed.

End CheckFacts.

(* ================================================================== *)
(** * The reference file system is faithful *)
(* ================================================================== *)

Lemma RefFS_faithful : Faithful RefFS.os RefFS.content.
Proof.
  split; simpl; intros.
  - now exists w.
  - now exists (RefFS.cwd w).
  - eauto.
  - exists (RefFS.store p b w). split; [reflexivity|].
    unfold RefFS.content, RefFS.store. simpl. now rewrite eqb_refl.
  - reflexivity.
  - now rewrite H.
Qed.

(* ================================================================== *)
(** * Encoded texts *)
(* ================================================================== *)

Section EncodingFacts.

Lemma encode_char_not_empty (c : char) (b : Utf8.bytes) :
  Utf8.encode_char c = Some b -> b <> [].
Proof.
  intros E Hb. subst b. unfold Utf8.encode_char in E.
  destruct (c <? 0x80); [discriminate E|].
  destruct (c <? 0x800); [discriminate E|].
  destruct ((0xD800 <=? c) && (c <=? 0xDFFF)); [discriminate E|].
  destruct (c <? 0x10000); [discriminate E|].
  destruct (c <? 0x110000); discriminate E.
Qed.

(** Only the empty text has an empty encoding. *)
Lemma encode_empty (t : pystr) : Utf8.encode t = Some [] -> t = [].
Proof.
  destruct t as [|c t]; [reflexivity|]. simpl.
  destruct (Utf8.encode_char c) as [b|] eqn:Ec; [|discriminate].
  destruct (Utf8.encode t) as [bs|]; [|discriminate].
  intros E. injection E as E. apply app_eq_nil in E as [-> _].
  now apply encode_char_not_empty in Ec.
Qed.

(** A text of ASCII characters is its own encoding. *)
Lemma encode_repeat_ascii (c : char) (n : nat) :
  (c <? 0x80) = true -> Utf8.encode (repeat c n) = Some (repeat c n).
Proof.
  intros Hc. induction n as [|n IH]; [reflexivity|].
  cbn [repeat Utf8.encode]. rewrite IH. unfold Utf8.encode_char.
  now rewrite Hc.
Qed.

End EncodingFacts.

(* ================================================================== *)
(** * The properties of [save_text] *)
(* ================================================================== *)

Section Properties.

Context {W : Type}.
Variable os : OS W.
Variables root script : pystr.

Lemma verified_result t name p w2 d tr :
  Verified os t name p w2 (Return d) tr ->
  (exists m, d = error m) \/ exists abs_path file_size,
      d = success abs_path file_size name.
Proof.
  inversion 1; subst; eauto.
Qed.

Lemma run_result text filename w d w' tr :
  Run os root script text filename w d w' tr ->
  (exists m, d = error m) \/ exists abs_path file_size,
      d = success abs_path file_size (final_name os filename w).
Proof.
  intros HR. apply run_cases in HR
    as [[_ Hm] | (t & data & w1 & r & vtr & _ & _ & _ & _ & Hv & _ & _ & Hr)].
  - now left.
  - destruct Hr as [-> | (e & _ & ->)].
    + now apply verified_result in Hv.
    + left. apply answer_is_error.
Qed.

(** C1. Whatever the text and the filename, a file that [save_text]
    writes is written to the join of the storage root and the final
    name; the final name holds no separator and is neither empty nor [.]
    nor [..], so the path is the root followed by the name and the name
    is the last component of the path. For the filename
    [../../etc/passwd] the name is [passwd.txt]. *)
Theorem save_text_writes_under_root text filename w r w' tr p data res :
  save_text os root script text filename w = (r, w', tr) ->
  In (Write p data res) tr ->
  exists name,
    name = final_name os filename w /\
    p = PosixPath.join root name /\
    no_separator name = true /\
    name <> [] /\ name <> str "." /\ name <> str ".." /\
    (p = root ++ [SLASH] ++ name
     \/ p = root ++ name /\ (root = [] \/ exists r0, root = r0 ++ [SLASH])) /\
    PosixPath.basename p = name /\
    (filename = Some (str "../../etc/passwd") -> name = str "passwd.txt").
Proof.
  intros H Hin. apply save_text_inv in H as (d & -> & HR).
  apply in_writes in Hin.
  apply run_writes in HR as [E | (t & bytes & _ & _ & _ & E)];
    rewrite E in Hin; [contradiction|].
  destruct Hin as [Hin | []]. injection Hin as <- <-.
  exists (final_name os filename w).
  destruct (final_name_proper os filename w) as (H1 & H2 & H3).
  destruct (target_under_root os root filename w) as [H4 H5].
  repeat split; auto.
  - apply final_name_no_separator.
  - intros ->. reflexivity.
Qed.

(** C5. On a file system that does what it is asked, a text whose UTF-8
    encoding has at most 10,485,760 bytes is saved: the answer is a
    success, its size field is the length of the encoding, and the file
    holds the encoding. *)
Theorem save_text_succeeds_on_faithful_os content t filename w data :
  Faithful os content ->
  Utf8.encode t = Some data ->
  Utf8.len data <= MAX_TEXT_SIZE ->
  exists abs_path w' tr,
    save_text os root script (Str t) filename w
    = (Return (success abs_path (Utf8.len data) (final_name os filename w)),
       w', tr) /\
    get (success abs_path (Utf8.len data) (final_name os filename w)) "size"
    = Some (VInt (Utf8.len data)) /\
    content w' (target os root filename w) = Some data /\
    os_getsize os (target os root filename w) w' = Return (Utf8.len data).
Proof.
  intros HF Hd Hl.
  unfold target, final_name.
  set (name := ensure_txt (chosen_name os filename w)).
  set (p := PosixPath.join root name).
  destruct (faithful_mkdir _ _ HF root w) as (w1 & Hm).
  destruct (faithful_getcwd _ _ HF w1) as (cwd & Hg).
  destruct (faithful_abspath _ _ HF script w1) as (script_abs & Hs).
  destruct (faithful_write _ _ HF p data w1) as (w2 & Hw & Hc).
  destruct (faithful_abspath _ _ HF p w2) as (abs_path & Ha).
  pose proof (faithful_exists _ _ HF p w2) as He. rewrite Hc in He.
  pose proof (faithful_getsize _ _ HF p w2 data Hc) as Hz.
  assert (Hn : (Utf8.len data =? 0) && (0 <? N.of_nat (length t)) = false).
  { destruct data as [|b data]; [|reflexivity].
    now rewrite (encode_empty t Hd). }
  apply N.ltb_ge in Hl.
  exists abs_path, w2. eexists. repeat split; try assumption.
  unfold save_text, save_text_body, verify, write.
  rewrite translate_newlines_posix.
  unfold bind, attempt, encode, mkdir, getcwd, abspath, exists_, getsize,
    log, reading, changing.
  rewrite Hd. unfold ret at 1. rewrite Hl, choose_filename_run.
  fold name. fold p. rewrite Hm, Hg, Hs. unfold ret at 1. rewrite Hw.
  rewrite Ha, He. cbn [negb]. rewrite Hz, Hn. unfold ret. reflexivity.
Qed.

(** C6. A text whose UTF-8 encoding has more than 10,485,760 bytes is
    refused with the message of [TextTooLargeError]; no call reaches the
    operating system, so its state is the one before the call and no
    file is created. The one trace entry is the log line of the
    handler. *)
Theorem save_text_rejects_large_text t filename w data :
  Utf8.encode t = Some data ->
  MAX_TEXT_SIZE < Utf8.len data ->
  save_text os root script (Str t) filename w
  = (Return (error (TextTooLarge MAX_TEXT_SIZE)), w,
     [Log ERROR (TextSizeError (TextTooLarge MAX_TEXT_SIZE))]).
Proof.
  intros Hd Hl. apply N.ltb_lt in Hl.
  unfold save_text, save_text_body, bind, attempt, encode.
  rewrite Hd. unfold ret at 1. rewrite Hl. reflexivity.
Qed.

(** C7. Whatever the text and the filename, and whatever the operating
    system answers or raises, [save_text] returns a mapping. The mapping
    has the status [error] and the keys [status] and [message], or it
    has the status [success] and the keys [status], [message], [path],
    [size] and [filename]. *)
Theorem save_text_returns_mapping text filename w :
  exists d w' tr,
    save_text os root script text filename w = (Return d, w', tr) /\
    (get d "status" = Some (VStr (str "error")) /\
     (exists m, get d "message" = Some (VMsg m)) /\
     keys d = FAILURE_KEYS
     \/
     get d "status" = Some (VStr (str "success")) /\
     (exists m, get d "message" = Some (VMsg m)) /\
     keys d = SUCCESS_KEYS).
Proof.
  destruct (save_text_run os root script text filename w)
    as (d & w' & tr & E & HR).
  exists d, w', tr. split; [assumption|].
  apply run_result in HR as [[m ->] | (abs_path & file_size & ->)].
  - left. repeat split. now exists m.
  - right. repeat split. now exists (Saved abs_path).
Qed.

(** C8. The name the file is written under ends in [.txt], whether it
    was generated, accepted or sanitized: it is the chosen name when
    that ends in [.txt], and the chosen name followed by [.txt]
    otherwise. Every write of a call goes to the join of the root and
    that name, and a filename field in the answer holds that name. *)
Theorem save_text_name_ends_in_txt text filename w r w' tr :
  save_text os root script text filename w = (r, w', tr) ->
  let chosen := chosen_name os filename w in
  let name := final_name os filename w in
  endswith name (str ".txt") = true /\
  (endswith chosen (str ".txt") = true /\ name = chosen
   \/ endswith chosen (str ".txt") = false /\ name = chosen ++ str ".txt") /\
  (forall p data res, In (Write p data res) tr ->
     p = PosixPath.join root name /\ endswith p (str ".txt") = true) /\
  (forall d v, r = Return d -> get d "filename" = Some v -> v = VStr name).
Proof.
  intros H. cbv zeta. apply save_text_inv in H as (d & -> & HR).
  split; [apply final_name_endswith|].
  split; [apply ensure_txt_cases|].
  split.
  - intros p data res Hin. apply in_writes in Hin.
    apply run_writes in HR as [E | (t & bytes & _ & _ & _ & E)];
      rewrite E in Hin; [contradiction|].
    destruct Hin as [Hin | []]. injection Hin as <- <-.
    split; [reflexivity | apply target_endswith].
  - intros d' v Hd Hv. injection Hd as <-.
    apply run_result in HR as [[m ->] | (abs_path & file_size & ->)].
    + discriminate Hv.
    + simpl in Hv. now injection Hv as <-.
Qed.

End Properties.

(* ================================================================== *)
(** * The properties on concrete calls *)
(* ================================================================== *)

(** The traversal attempt of the specification, on the reference file
    system with the root [/srv]: the one write goes to
    [/srv/passwd.txt]. *)
Lemma save_text_writes_under_root_witness :
  In (Write (str "/srv/passwd.txt") (str "data") (Return tt))
     (snd (save_text RefFS.os ROOT SCRIPT (Str (str "data"))
                     (Some (str "../../etc/passwd")) RefFS.empty)) /\
  exists name,
    name = str "passwd.txt" /\
    str "/srv/passwd.txt" = PosixPath.join ROOT name /\
    no_separator name = true /\
    PosixPath.basename (str "/srv/passwd.txt") = name.
Proof.
  assert (Hin : In (Write (str "/srv/passwd.txt") (str "data") (Return tt))
                   (snd (save_text RefFS.os ROOT SCRIPT (Str (str "data"))
                           (Some (str "../../etc/passwd")) RefFS.empty))).
  { rewrite run_traversal. simpl. tauto. }
  split; [exact Hin|].
  rewrite run_traversal in Hin.
  destruct (save_text_writes_under_root
              RefFS.os ROOT SCRIPT (Str (str "data"))
              (Some (str "../../etc/passwd")) RefFS.empty _ _ _ _ _ _
              run_traversal Hin)
    as (name & _ & Hp & Hs & _ & _ & _ & _ & Hb & Hn).
  exists name. repeat split; try assumption. now apply Hn.
Defined.

(** A text of five bytes saved without a filename on the reference file
    system. *)
Lemma save_text_succeeds_on_faithful_os_witness :
  Faithful RefFS.os RefFS.content /\
  Utf8.encode (str "hello") = Some (str "hello") /\
  Utf8.len (str "hello") <= MAX_TEXT_SIZE /\
  exists abs_path w' tr,
    save_text RefFS.os ROOT SCRIPT (Str (str "hello")) None RefFS.empty
    = (Return (success abs_path 5 (str "2024-03-09-12-00-05.txt")), w', tr) /\
    RefFS.content w' (str "/srv/2024-03-09-12-00-05.txt") = Some (str "hello").
Proof.
  assert (Hl : Utf8.len (str "hello") <= MAX_TEXT_SIZE)
    by (vm_compute; discriminate).
  split; [exact RefFS_faithful|]. split; [reflexivity|]. split; [exact Hl|].
  destruct (save_text_succeeds_on_faithful_os
              RefFS.os ROOT SCRIPT RefFS.content (str "hello") None
              RefFS.empty (str "hello") RefFS_faithful eq_refl Hl)
    as (abs_path & w' & tr & E & _ & Hc & _).
  exists abs_path, w', tr. split; assumption.
Defined.

(** A text of 10,485,761 letters: one byte over the limit. *)
Lemma save_text_rejects_large_text_witness :
  let t := repeat (cp "a") (N.to_nat 10485761) in
  Utf8.encode t = Some t /\
  MAX_TEXT_SIZE < Utf8.len t /\
  save_text RefFS.os ROOT SCRIPT (Str t) (Some (str "big.txt")) RefFS.empty
  = (Return (error (TextTooLarge MAX_TEXT_SIZE)), RefFS.empty,
     [Log ERROR (TextSizeError (TextTooLarge MAX_TEXT_SIZE))]).
Proof.
  intros t.
  assert (He : Utf8.encode t = Some t)
    by (apply encode_repeat_ascii; reflexivity).
  assert (Hl : MAX_TEXT_SIZE < Utf8.len t).
  { unfold Utf8.len, t. rewrite repeat_length, N2Nat.id. reflexivity. }
  split; [exact He|]. split; [exact Hl|].
  exact (save_text_rejects_large_text
           RefFS.os ROOT SCRIPT t (Some (str "big.txt")) RefFS.empty t He Hl).
Defined.

(** A name without the suffix: [notes] is written as [notes.txt]. *)
Lemma save_text_name_ends_in_txt_witness :
  final_name RefFS.os (Some (str "notes")) RefFS.empty = str "notes.txt" /\
  endswith (final_name RefFS.os (Some (str "notes")) RefFS.empty) (str ".txt")
  = true /\
  forall p data res,
    In (Write p data res)
       (snd (save_text RefFS.os ROOT SCRIPT (Str (str "data"))
                       (Some (str "notes")) RefFS.empty)) ->
    p = str "/srv/notes.txt".
Proof.
  destruct (save_text_name_ends_in_txt
              RefFS.os ROOT SCRIPT (Str (str "data")) (Some (str "notes"))
              RefFS.empty _ _ _ eq_refl)
    as (He & _ & Hw & _).
  split; [reflexivity|]. split; [exact He|].
  intros p data res Hin. now apply Hw in Hin as [-> _].
Defined.

(* ================================================================== *)
(** * Further properties of [validate_filename] and [sanitize_path] *)
(* ================================================================== *)

Section NameChecks.

Lemma safe_char_not_separator (c : char) :
  Re.in_class SAFE_CHARS c = true -> is_separator c = false.
Proof.
  rewrite safe_chars_ranges. intros [H | [-> | [-> | ->]]];
    [now apply alnum_not_separator | reflexivity ..].
Qed.

Lemma no_separator_chars (s : pystr) :
  no_separator s = true ->
  contains (str "/") s = false /\ contains (str "\") s = false.
Proof.
  intros H. change (str "/") with [SLASH]. change (str "\") with [BACKSLASH].
  rewrite !contains_char. unfold no_separator, is_separator in H.
  rewrite forallb_forall in H.
  split; apply not_true_is_false; intros E;
    apply existsb_exists in E as (c & Hc & Ec);
    specialize (H c Hc); rewrite Ec in H;
    [discriminate H | now rewrite orb_true_r in H].
Qed.

(** A text that the pattern matches holds no separator. *)
Lemma pattern_no_separator (f : pystr) :
  Re.match_ SAFE_FILENAME_PATTERN f = true -> no_separator f = true.
Proof.
  rewrite pattern_spec. intros (c & body & tail & -> & Hc & Hb & Ht).
  unfold no_separator. change (c :: body ++ tail) with ([c] ++ body ++ tail).
  rewrite !forallb_app. simpl.
  rewrite (alnum_not_separator c Hc). simpl.
  apply andb_true_iff. split.
  - rewrite forallb_forall in *. intros x Hx.
    now rewrite (safe_char_not_separator x (Hb x Hx)).
  - destruct Ht as [-> | ->]; reflexivity.
Qed.

Lemma pattern_not_absolute (f : pystr) :
  Re.match_ SAFE_FILENAME_PATTERN f = true -> PosixPath.isabs f = false.
Proof.
  rewrite pattern_spec. intros (c & body & tail & -> & Hc & _).
  unfold PosixPath.isabs.
  change (startswith (c :: body ++ tail) [SLASH])
    with ((c =? SLASH) && startswith (body ++ tail) []).
  apply alnum_not_separator in Hc. unfold is_separator in Hc.
  apply orb_false_iff in Hc as [-> _]. reflexivity.
Qed.

(** X1. The pattern and the test for two dots in a row decide
    [validate_filename]: the tests of line 90 for an absolute path, for
    [/] and for [\] never refuse a name that the pattern accepts. *)
Theorem validate_filename_pattern_and_dots (f : pystr) :
  validate_filename f
  = Re.match_ SAFE_FILENAME_PATTERN f && negb (contains (str "..") f).
Proof.
  unfold validate_filename.
  destruct (Re.match_ SAFE_FILENAME_PATTERN f) eqn:E.
  - rewrite (pattern_not_absolute f E).
    destruct (no_separator_chars f (pattern_no_separator f E)) as [-> ->].
    now destruct (contains (str "..") f).
  - now destruct (PosixPath.isabs f || contains (str "..") f
                  || contains (str "/") f || contains (str "\") f).
Qed.

Lemma no_dots_no_pair (s : pystr) :
  forallb (fun c => negb (c =? DOT)) s = true ->
  contains (str "..") s = false.
Proof.
  induction s as [|c s IH]; [reflexivity|].
  intros H. simpl in H. apply andb_prop in H as [Hc Hs].
  change (contains (str "..") (c :: s))
    with (((c =? DOT) && startswith s [DOT]) || contains (str "..") s).
  rewrite (IH Hs). apply negb_true_iff in Hc. now rewrite Hc.
Qed.

Lemma keep_or_underscore_not_dot (c : char) :
  (keep_or_underscore c =? DOT) = false.
Proof.
  unfold keep_or_underscore. destruct (Re.in_class ALNUM c) eqn:E.
  - apply alnum_ranges in E. apply N.eqb_neq. change DOT with 46. lia.
  - reflexivity.
Qed.

Lemma keep_or_underscore_safe (c : char) :
  Re.in_class SAFE_CHARS (keep_or_underscore c) = true.
Proof.
  apply safe_chars_ranges. unfold keep_or_underscore.
  destruct (Re.in_class ALNUM c) eqn:E; auto.
Qed.

Lemma sanitized_no_pair (b : pystr) :
  contains (str "..") (map keep_or_underscore b) = false.
Proof.
  apply no_dots_no_pair, forallb_forall. intros x Hx.
  apply in_map_iff in Hx as (y & <- & _).
  now rewrite keep_or_underscore_not_dot.
Qed.

(** X2. What [sanitize_path] answers is a single safe component,
    whatever it is given: not empty, without separator, without two
    dots in a row, and made of letters, digits and underscores unless
    it is the fallback name. Only the final component of the input
    counts: a directory prefix changes nothing. *)
Theorem sanitize_path_single_component (f : pystr) :
  sanitize_path f <> [] /\
  no_separator (sanitize_path f) = true /\
  contains (str "..") (sanitize_path f) = false /\
  (sanitize_path f = str "file.txt" \/
   forallb (fun c => Re.in_class ALNUM c || (c =? UNDERSCORE))
           (sanitize_path f) = true /\
   length (sanitize_path f) = length (PosixPath.basename f)) /\
  (forall dir, sanitize_path (dir ++ [SLASH] ++ f) = sanitize_path f).
Proof.
  split; [apply sanitize_path_not_empty|].
  split; [apply sanitize_path_no_separator|].
  split; [|split].
  - rewrite sanitize_path_unfold.
    destruct (PosixPath.basename f); [reflexivity | apply sanitized_no_pair].
  - destruct (sanitize_path_chars f) as [H | H]; [now left | right].
    split; [assumption|]. rewrite sanitize_path_unfold.
    destruct (PosixPath.basename f) as [|c b] eqn:E.
    + rewrite sanitize_path_unfold, E in H. discriminate H.
    + apply length_map.
  - intros dir. rewrite !sanitize_path_unfold.
    unfold PosixPath.basename. simpl. now rewrite after_last_slash_skip.
Qed.

(** X4. A sanitized name passes [validate_filename] exactly when the
    final component of the input is empty (the fallback [file.txt] is a
    valid name) or begins with a letter or a digit. *)
Theorem validate_filename_of_sanitized (f : pystr) :
  validate_filename (sanitize_path f)
  = match PosixPath.basename f with
    | [] => true
    | c :: _ => Re.in_class ALNUM c
    end.
Proof.
  rewrite sanitize_path_unfold.
  destruct (PosixPath.basename f) as [|c b]; [reflexivity|].
  change (map keep_or_underscore (c :: b))
    with (keep_or_underscore c :: map keep_or_underscore b).
  destruct (Re.in_class ALNUM c) eqn:E.
  - apply validate_filename_spec.
    assert (Hs : no_separator (map keep_or_underscore (c :: b)) = true)
      by apply sanitized_no_separator.
    destruct (no_separator_chars _ Hs) as [H1 H2].
    repeat split; try assumption.
    + unfold PosixPath.isabs.
      change (startswith (keep_or_underscore c :: map keep_or_underscore b)
                         [SLASH])
        with ((keep_or_underscore c =? SLASH)
              && startswith (map keep_or_underscore b) []).
      pose proof (keep_or_underscore_not_separator c) as Hc.
      unfold is_separator in Hc. apply orb_false_iff in Hc as [-> _].
      reflexivity.
    + apply (sanitized_no_pair (c :: b)).
    + exists (keep_or_underscore c), (map keep_or_underscore b), [].
      rewrite app_nil_r. repeat split; auto.
      * unfold keep_or_underscore. now rewrite E.
      * apply forallb_forall. intros x Hx.
        apply in_map_iff in Hx as (y & <- & _).
        apply keep_or_underscore_safe.
  - apply not_true_is_false. intros H.
    apply validate_filename_spec in H
      as (_ & _ & _ & _ & c' & body & tail & Ef & Hc & _).
    injection Ef as <- _. unfold keep_or_underscore in Hc.
    rewrite E in Hc. discriminate Hc.
Qed.

End NameChecks.

(* ================================================================== *)
(** * Further properties of [save_text] *)
(* ================================================================== *)

(** Splits a membership in a list that is written out. *)
Ltac in_list H :=
  repeat (destruct H as [H | H]; [try discriminate H|]);
  try contradiction.

Section EncodedSize.

Lemma encode_char_length (c : char) (b : Utf8.bytes) :
  Utf8.encode_char c = Some b -> (1 <= length b <= 4)%nat.
Proof.
  intros E.
  assert (H : match Utf8.encode_char c with
              | Some l => length l
              | None => 0%nat
              end = length b) by now rewrite E.
  unfold Utf8.encode_char in H, E.
  destruct (c <? 0x80); [cbn [length] in H; lia|].
  destruct (c <? 0x800); [cbn [length] in H; lia|].
  destruct ((0xD800 <=? c) && (c <=? 0xDFFF)); [discriminate E|].
  destruct (c <? 0x10000); [cbn [length] in H; lia|].
  destruct (c <? 0x110000); [cbn [length] in H; lia|discriminate E].
Qed.

(** Every code point takes one to four bytes. *)
Lemma encode_length (t : pystr) (data : Utf8.bytes) :
  Utf8.encode t = Some data ->
  (length t <= length data <= 4 * length t)%nat.
Proof.
  revert data. induction t as [|c t IH]; intros data E.
  - injection E as <-. simpl. lia.
  - simpl in E.
    destruct (Utf8.encode_char c) as [b|] eqn:Ec; [|discriminate E].
    destruct (Utf8.encode t) as [bs|]; [|discriminate E].
    injection E as <-. apply encode_char_length in Ec.
    specialize (IH bs eq_refl). rewrite length_app. simpl. lia.
Qed.

(** A surrogate anywhere in the text makes the encoding fail. *)
Lemma encode_of_surrogate (t : pystr) (c : char) :
  In c t -> 0xD800 <= c <= 0xDFFF -> Utf8.encode t = None.
Proof.
  intros Hin Hc. induction t as [|x t IH]; [contradiction|].
  simpl. destruct Hin as [-> | Hin].
  - assert (E : Utf8.encode_char c = None).
    { unfold Utf8.encode_char.
      destruct (c <? 0x80) eqn:E1; [apply N.ltb_lt in E1; lia|].
      destruct (c <? 0x800) eqn:E2; [apply N.ltb_lt in E2; lia|].
      assert (E3 : (0xD800 <=? c) && (c <=? 0xDFFF) = true)
        by (apply andb_true_iff; rewrite !N.leb_le; lia).
      now rewrite E3. }
    now rewrite E.
  - rewrite (IH Hin). now destruct (Utf8.encode_char x).
Qed.

End EncodedSize.

Section MoreRuns.

Context {W : Type}.
Variable os : OS W.
Variables root script : pystr.

Lemma choice_trace_events (filename : option pystr) (w : W) (e : event) :
  In e (choice_trace os filename w) ->
  (exists lvl t, e = Log lvl t) \/ exists d, e = Now d.
Proof.
  unfold choice_trace. destruct filename as [[|c f]|].
  - intros [<- | []]. eauto.
  - destruct (validate_filename (c :: f)); [contradiction|].
    intros [<- | [<- | []]]; eauto.
  - intros [<- | []]. eauto.
Qed.

Lemma logged_is_log (e : exn) : exists t, logged e = Log ERROR t.
Proof. destruct e as [[] m]; simpl; eauto. Qed.

(** A call is its body, followed by a log line when the body raised. *)
Lemma run_body text filename w d w' tr :
  Run os root script text filename w d w' tr ->
  exists r btr,
    Body os root script text filename w r w' btr /\
    (r = Return d /\ tr = btr
     \/ exists e, r = Raise e /\ d = answer e /\ tr = btr ++ [logged e]).
Proof.
  destruct 1 as [d w' tr Hb | e w' tr Hb].
  - exists (Return d), tr. auto.
  - exists (Raise e), tr. split; [assumption|]. right. now exists e.
Qed.

(** The events of a call that are neither log lines nor readings of the
    clock are those of the storing. *)
Lemma run_storing text filename w d w' tr e :
  Run os root script text filename w d w' tr ->
  In e tr ->
  (forall lvl t, e <> Log lvl t) -> (forall x, e <> Now x) ->
  exists t data r str tail,
    text = Str t /\ Utf8.encode t = Some data /\
    Utf8.len data <= MAX_TEXT_SIZE /\
    Storing os root script t data (final_name os filename w)
            (target os root filename w) w r w' str /\
    In e str /\
    tr = choice_trace os filename w ++ str ++ tail /\
    (r = Return d /\ tail = []
     \/ exists x, r = Raise x /\ d = answer x /\ tail = [logged x]).
Proof.
  intros HR Hin Hlog Hnow.
  apply run_body in HR as (r & btr & Hb & Hr).
  assert (Hin' : In e btr).
  { destruct Hr as [[_ ->] | (x & _ & _ & ->)]; [assumption|].
    apply in_app_or in Hin as [Hin | [<- | []]]; [assumption|].
    destruct (logged_is_log x) as [m Hm]. now apply Hlog in Hm. }
  destruct Hb as [| | |t data r w' str Ht Hd Hl Hs]; try contradiction.
  apply in_app_or in Hin' as [Hc | Hs'].
  { apply choice_trace_events in Hc as [(lvl & x & E) | (x & E)];
      [now apply Hlog in E | now apply Hnow in E]. }
  destruct Hr as [[-> ->] | (x & -> & -> & ->)].
  - exists t, data, (Return d), str, []. rewrite app_nil_r. auto 10.
  - exists t, data, (Raise x), str, [logged x]. rewrite <- app_assoc.
    repeat split; eauto.
Qed.

(** X5. The size check in characters: the UTF-8 encoding of a text has
    between one and four bytes per character, so a text of at most
    2,621,440 characters is never refused for its size (the call goes on
    to create the directory), and a text of more than 10,485,760
    characters is always refused. *)
Theorem save_text_size_in_characters t filename w data :
  Utf8.encode t = Some data ->
  N.of_nat (length t) <= Utf8.len data <= 4 * N.of_nat (length t) /\
  (4 * N.of_nat (length t) <= MAX_TEXT_SIZE ->
   exists r rest,
     snd (save_text os root script (Str t) filename w)
     = choice_trace os filename w ++ Mkdir root r :: rest) /\
  (MAX_TEXT_SIZE < N.of_nat (length t) ->
   fst (fst (save_text os root script (Str t) filename w))
   = Return (error (TextTooLarge MAX_TEXT_SIZE))).
Proof.
  intros Hd. pose proof (encode_length t data Hd) as Hb.
  assert (Hn : N.of_nat (length t) <= Utf8.len data <= 4 * N.of_nat (length t))
    by (unfold Utf8.len; lia).
  split; [exact Hn|]. split.
  - intros Hs.
    destruct (save_text_run os root script (Str t) filename w)
      as (d & w' & tr & E & HR).
    rewrite E. cbn [snd].
    apply run_body in HR as (r & btr & Hbody & Hr).
    assert (Hshape : exists r0 rest,
               btr = choice_trace os filename w ++ Mkdir root r0 :: rest).
    { destruct Hbody as [Ht | t0 Ht He | t0 d0 Ht He Hlt
                        | t0 d0 r w' str Ht He Hle Hst]; try discriminate Ht;
        injection Ht as <-; rewrite Hd in He; try discriminate He;
        injection He as <-.
      - lia.
      - destruct Hst; simpl; eauto. }
    destruct Hshape as (r0 & rest & ->).
    destruct Hr as [[_ ->] | (x & _ & _ & ->)]; [eauto|].
    exists r0, (rest ++ [logged x]). now rewrite <- app_assoc.
  - intros Hs. unfold save_text, save_text_body, bind, attempt, encode.
    rewrite Hd. unfold ret at 1.
    assert (Hl : (MAX_TEXT_SIZE <? Utf8.len data) = true)
      by (apply N.ltb_lt; lia).
    now rewrite Hl.
Qed.

(** X6. A text that holds a surrogate cannot be encoded: the handler
    of last resort answers, nothing reaches the operating system and
    the state stays as it was. *)
Theorem save_text_surrogate_text t c filename w :
  In c t -> 0xD800 <= c <= 0xDFFF ->
  exists m,
    save_text os root script (Str t) filename w
    = (Return (error (Unexpected m)), w, [Log ERROR (UnexpectedErrorLogged m)]).
Proof.
  intros Hin Hc. eexists.
  unfold save_text, save_text_body, bind, attempt, encode.
  rewrite (encode_of_surrogate t c Hin Hc). reflexivity.
Qed.

Lemma verified_events t name p w2 r vtr e :
  Verified os t name p w2 r vtr ->
  In e vtr ->
  (exists a, e = Abspath p a) \/ (exists b, e = Exists p b)
  \/ exists s, e = Getsize p s.
Proof.
  destruct 1; intros Hin; simpl in Hin;
    repeat (destruct Hin as [<- | Hin]; [eauto|]); contradiction.
Qed.

(** What the one write of a storing answered decides how it goes on. *)
Lemma written_event t data name p w1 r w2 wtr :
  Written os t data name p w1 r w2 wtr ->
  exists res vtr,
    wtr = Write p data res :: vtr /\
    os_write os p data w1 = (res, w2) /\
    match res with
    | Return _ => Verified os t name p w2 r vtr
    | Raise (Exn PermissionError m) =>
        r = Return (error (NoWritePermission name)) /\ vtr = []
    | Raise (Exn OSError m) =>
        r = Return (error (IOErrorWhileWriting m)) /\ vtr = []
    | Raise e => r = Raise e /\ vtr = []
    end.
Proof.
  destruct 1 as [m w2 Hw | m w2 Hw | e w2 Hw He | w2 r vtr Hw Hv].
  - eexists _, _. repeat split; eauto.
  - eexists _, _. repeat split; eauto.
  - exists (Raise e), []. repeat split; auto.
    destruct e as [[] m]; try discriminate He; auto.
  - eexists _, _. repeat split; eauto.
Qed.

(** The trace of a storing: the directory, then the working directory
    and the path of the script for the log, then the write. *)
Lemma storing_shape t data name p w r w' str :
  Storing os root script t data name p w r w' str ->
  exists rm w1,
    os_mkdir os root w = (rm, w1) /\
    ((exists e, rm = Raise e /\ r = Raise e /\ w' = w1 /\
                str = [Mkdir root (Raise e)])
     \/ rm = Return tt /\
        ((exists e, os_getcwd os w1 = Raise e /\ r = Raise e /\ w' = w1 /\
                    str = [Mkdir root (Return tt); Getcwd (Raise e)])
         \/ exists cwd,
            os_getcwd os w1 = Return cwd /\
            ((exists e, os_abspath os script w1 = Raise e /\ r = Raise e /\
                        w' = w1 /\
                        str = [Mkdir root (Return tt); Getcwd (Return cwd);
                               Log INFO (WorkingDirectory cwd);
                               Abspath script (Raise e)])
             \/ exists sa wtr,
                os_abspath os script w1 = Return sa /\
                Written os t data name p w1 r w' wtr /\
                str = [Mkdir root (Return tt); Getcwd (Return cwd);
                       Log INFO (WorkingDirectory cwd);
                       Abspath script (Return sa);
                       Log INFO (ScriptDirectory (PosixPath.dirname sa));
                       Log INFO (SaveTarget p)] ++ wtr))).
Proof.
  destruct 1 as [e w1 Hm | e w1 Hm Hg | e w1 cwd Hm Hg Ha
                | w1 cwd sa r w2 wtr Hm Hg Ha Hw].
  - exists (Raise e), w1. split; [assumption|]. left. now exists e.
  - exists (Return tt), w1. split; [assumption|]. right.
    split; [reflexivity|]. left. now exists e.
  - exists (Return tt), w1. split; [assumption|]. right.
    split; [reflexivity|]. right. exists cwd. split; [assumption|].
    left. now exists e.
  - exists (Return tt), w1. split; [assumption|]. right.
    split; [reflexivity|]. right. exists cwd. split; [assumption|].
    right. now exists sa, wtr.
Qed.

End MoreRuns.

Section WriteAndChecks.

Context {W : Type}.
Variable os : OS W.
Variables root script : pystr.

(** X7. A call writes at most once. What it writes is the UTF-8
    encoding of the text, of at most [MAX_TEXT_SIZE] bytes, and the
    write comes after the directory was created without an error. *)
Theorem save_text_writes_encoding_once text filename w r w' tr p data res :
  save_text os root script text filename w = (r, w', tr) ->
  In (Write p data res) tr ->
  exists t,
    text = Str t /\ Utf8.encode t = Some data /\
    Utf8.len data <= MAX_TEXT_SIZE /\
    writes tr = [(p, data)] /\
    exists before after,
      tr = before ++ Write p data res :: after /\
      In (Mkdir root (Return tt)) before.
Proof.
  intros H Hin. apply save_text_inv in H as (d & -> & HR).
  pose proof (in_writes _ _ _ _ Hin) as Hw.
  destruct (run_writes _ _ _ _ _ _ _ _ _ HR)
    as [E | (t & bytes & Ht & Hd & Hl & E)]; rewrite E in Hw;
    [contradiction|].
  destruct Hw as [Hw | []]. injection Hw as <- <-.
  exists t. repeat split; try assumption.
  destruct (run_storing _ _ _ _ _ _ _ _ _ _ HR Hin)
    as (t0 & d0 & r0 & str & tail & _ & _ & _ & Hs & Hi & -> & _);
    [discriminate .. |].
  apply storing_shape in Hs
    as (rm & w1 & _ & [(e & _ & _ & _ & ->)
                      | (_ & [(e & _ & _ & _ & ->)
                             | (cwd & _ & [(e & _ & _ & _ & ->)
                                          | (sa & wtr & _ & Hwr & ->)])])]);
    try (simpl in Hi; in_list Hi).
  apply written_event in Hwr as (res0 & vtr & -> & _ & Hm).
  destruct Hi as [E0 | Hi].
  - injection E0 as -> ->.
    exists (choice_trace os filename w
            ++ [Mkdir root (Return tt); Getcwd (Return cwd);
                Log INFO (WorkingDirectory cwd); Abspath script (Return sa);
                Log INFO (ScriptDirectory (PosixPath.dirname sa));
                Log INFO (SaveTarget (target os root filename w))]),
      (vtr ++ tail).
    split.
    + rewrite <- !app_assoc. reflexivity.
    + apply in_or_app. right. now left.
  - exfalso. destruct res0 as [[]|[cls m]].
    + apply (verified_events _ _ _ _ _ _ _ _ Hm) in Hi
        as [(a & E0) | [(b & E0) | (s & E0)]]; discriminate E0.
    + destruct cls; destruct Hm as [_ ->]; contradiction.
Qed.

(** X8. A write that raises ends the call without any check of the
    file: [PermissionError] gives the answer that names the file,
    another [OSError] gives the answer that carries the text of the
    error, and any other exception goes to the outer handlers. *)
Theorem save_text_write_failure text filename w r w' tr p data cls m :
  save_text os root script text filename w = (r, w', tr) ->
  In (Write p data (Raise (Exn cls m))) tr ->
  checks tr = [] /\
  r = Return
        match cls with
        | PermissionError => error (NoWritePermission (final_name os filename w))
        | OSError => error (IOErrorWhileWriting m)
        | _ => answer (Exn cls m)
        end.
Proof.
  intros H Hin. apply save_text_inv in H as (d & -> & HR).
  destruct (run_storing _ _ _ _ _ _ _ _ _ _ HR Hin)
    as (t & d0 & r0 & str & tail & _ & _ & _ & Hs & Hi & -> & Hr);
    [discriminate .. |].
  apply storing_shape in Hs
    as (rm & w1 & _ & [(e & _ & _ & _ & ->)
                      | (_ & [(e & _ & _ & _ & ->)
                             | (cwd & _ & [(e & _ & _ & _ & ->)
                                          | (sa & wtr & _ & Hwr & ->)])])]);
    try (simpl in Hi; in_list Hi).
  apply written_event in Hwr as (res0 & vtr & -> & _ & Hm).
  destruct Hi as [E0 | Hi].
  - injection E0 as _ _ ->.
    assert (Hv : vtr = []) by (destruct cls; now destruct Hm).
    subst vtr. split.
    + rewrite !checks_app, checks_choice_trace.
      destruct Hr as [[_ ->] | (x & _ & _ & ->)]; [reflexivity|].
      now rewrite checks_logged.
    + destruct cls; destruct Hm as [-> _];
        destruct Hr as [[E1 _] | (x & E1 & -> & _)];
        try discriminate E1; injection E1 as <-; reflexivity.
  - exfalso. destruct res0 as [[]|[cls0 m0]].
    + apply (verified_events _ _ _ _ _ _ _ _ Hm) in Hi
        as [(a & E0) | [(b & E0) | (s & E0)]]; discriminate E0.
    + destruct cls0; destruct Hm as [_ ->]; contradiction.
Qed.

(** X9. When the directory cannot be created, or when [os.getcwd()]
    raises while the log line of line 190 is built, the call ends
    there: nothing is written, nothing is checked, and the answer is
    the one of the outer handlers for that exception. *)
Theorem save_text_setup_failure text filename w r w' tr e :
  save_text os root script text filename w = (r, w', tr) ->
  (exists q, In (Mkdir q (Raise e)) tr) \/ In (Getcwd (Raise e)) tr ->
  writes tr = [] /\ checks tr = [] /\ r = Return (answer e).
Proof.
  intros H Hin. apply save_text_inv in H as (d & -> & HR).
  assert (Hcase : exists ev, In ev tr /\
                    ((exists q, ev = Mkdir q (Raise e)) \/ ev = Getcwd (Raise e))).
  { destruct Hin as [[q Hq] | Hg]; eauto. }
  destruct Hcase as (ev & Hev & Hkind).
  destruct (run_storing _ _ _ _ _ _ _ _ _ _ HR Hev)
    as (t & d0 & r0 & str & tail & _ & _ & _ & Hs & Hi & -> & Hr).
  { intros lvl x E. destruct Hkind as [[q ->] | ->]; discriminate E. }
  { intros x E. destruct Hkind as [[q ->] | ->]; discriminate E. }
  rewrite !writes_app, !checks_app, writes_choice_trace, checks_choice_trace.
  assert (Ht : writes tail = [] /\ checks tail = []).
  { destruct Hr as [[_ ->] | (x & _ & _ & ->)]; [split; reflexivity|].
    split; [apply writes_logged | apply checks_logged]. }
  destruct Ht as [-> ->].
  apply storing_shape in Hs
    as (rm & w1 & _ & [(x & _ & -> & _ & ->)
                      | (_ & [(x & _ & -> & _ & ->)
                             | (cwd & _ & [(x & _ & -> & _ & ->)
                                          | (sa & wtr & _ & Hwr & ->)])])]).
  - destruct Hkind as [[q ->] | ->]; simpl in Hi; in_list Hi.
    injection Hi as _ <-.
    destruct Hr as [[E _] | (y & E & -> & _)]; [discriminate E|].
    injection E as <-. repeat split.
  - destruct Hkind as [[q ->] | ->]; simpl in Hi; in_list Hi.
    injection Hi as <-.
    destruct Hr as [[E _] | (y & E & -> & _)]; [discriminate E|].
    injection E as <-. repeat split.
  - exfalso. destruct Hkind as [[q ->] | ->]; simpl in Hi; in_list Hi.
  - exfalso. apply in_app_or in Hi as [Hi | Hi].
    + destruct Hkind as [[q ->] | ->]; simpl in Hi; in_list Hi.
    + apply written_event in Hwr as (res0 & vtr & -> & _ & Hm).
      destruct Hi as [Hi | Hi].
      * destruct Hkind as [[q ->] | ->]; discriminate Hi.
      * destruct res0 as [[]|[cls m]].
        -- apply (verified_events _ _ _ _ _ _ _ _ Hm) in Hi
             as [(a & E0) | [(b & E0) | (s & E0)]];
             destruct Hkind as [[q ->] | ->]; discriminate E0.
        -- destruct cls; destruct Hm as [_ ->]; contradiction.
Qed.

(** X10. A success is answered only after a write that returned and
    after [exists] found the file: its size field is what [getsize]
    answered for the target, its path field is what [abspath] answered,
    and the state is the one the write left. *)
Theorem save_text_success_after_write text filename w d w' tr :
  save_text os root script text filename w = (Return d, w', tr) ->
  get d "status" = Some (VStr (str "success")) ->
  let p := target os root filename w in
  exists t data w1 abs_path file_size,
    text = Str t /\ Utf8.encode t = Some data /\
    os_write os p data w1 = (Return tt, w') /\
    In (Write p data (Return tt)) tr /\
    os_exists os p w' = true /\
    os_getsize os p w' = Return file_size /\
    os_abspath os p w' = Return abs_path /\
    d = success abs_path file_size (final_name os filename w) /\
    (file_size = 0 -> t = []).
Proof.
  intros H Hst. cbv zeta. apply save_text_inv in H as (d' & E & HR).
  injection E as <-.
  apply run_cases in HR
    as [[_ [m ->]]
       | (t & data & w1 & r & vtr & Ht & Hd & _ & Hw & Hv & _ & Hi & Hr)].
  - discriminate Hst.
  - destruct Hr as [-> | (e & _ & ->)].
    + destruct (verified_result _ _ _ _ _ _ _ Hv)
        as [[m ->] | (a & s & ->)]; [discriminate Hst|].
      destruct (verified_checks _ _ _ _ _ _ _ Hv) as (_ & _ & _ & Hok).
      destruct (Hok _ _ _ eq_refl) as (_ & Ha & He & Hs & Hz).
      exists t, data, w1, a, s. repeat split; try assumption.
      intros ->. destruct Hz; congruence.
    + destruct (answer_is_error e) as [m Hm]. rewrite Hm in Hst.
      discriminate Hst.
Qed.

(** X11. A call changes the state of the operating system through the
    creation of the directory and through one write to the target, and
    through nothing else. *)
Theorem save_text_state_changes text filename w r w' tr :
  save_text os root script text filename w = (r, w', tr) ->
  w' = w
  \/ (exists rm, os_mkdir os root w = (rm, w'))
  \/ exists w1 data res,
       os_mkdir os root w = (Return tt, w1) /\
       os_write os (target os root filename w) data w1 = (res, w').
Proof.
  intros H. apply save_text_inv in H as (d & -> & HR).
  apply run_body in HR as (r & btr & Hb & _).
  destruct Hb as [| | |t data r w' str Ht Hd Hl Hs]; auto.
  apply storing_shape in Hs
    as (rm & w1 & Hm & [(e & -> & _ & -> & _)
                       | (-> & [(e & _ & _ & -> & _)
                               | (cwd & _ & [(e & _ & _ & -> & _)
                                            | (sa & wtr & _ & Hwr & _)])])]);
    eauto.
  apply written_event in Hwr as (res & vtr & _ & Hw & _).
  right. right. now exists w1, data, res.
Qed.

End WriteAndChecks.

(* ================================================================== *)
(** * The checks after the write, and the call without a name *)
(* ================================================================== *)

Section ChecksAndNames.

Context {W : Type}.
Variable os : OS W.
Variables root script : pystr.

(** A write that returned is followed by the checks of lines 205-224,
    made in the state the write left; what they return or raise is
    what the call answers. *)
Lemma run_after_write text filename w d w' tr p data :
  Run os root script text filename w d w' tr ->
  In (Write p data (Return tt)) tr ->
  exists t r vtr,
    text = Str t /\ p = target os root filename w /\
    Verified os t (final_name os filename w) p w' r vtr /\
    (forall e, In e vtr -> In e tr) /\
    checks tr = checks vtr /\
    (r = Return d \/ exists x, r = Raise x /\ d = answer x).
Proof.
  intros HR Hin.
  destruct (run_storing _ _ _ _ _ _ _ _ _ _ HR Hin)
    as (t & d0 & r0 & str & tail & Ht & _ & _ & Hs & Hi & -> & Hr);
    [discriminate .. |].
  apply storing_shape in Hs
    as (rm & w1 & _ & [(e & _ & _ & _ & ->)
                      | (_ & [(e & _ & _ & _ & ->)
                             | (cwd & _ & [(e & _ & _ & _ & ->)
                                          | (sa & wtr & _ & Hwr & ->)])])]);
    try (simpl in Hi; in_list Hi).
  apply written_event in Hwr as (res0 & vtr & -> & _ & Hm).
  destruct Hi as [E0 | Hi].
  - injection E0 as <- <- ->.
    exists t, r0, vtr.
    split; [assumption|]. split; [reflexivity|]. split; [assumption|].
    split; [|split].
    + intros e He. apply in_or_app. right. apply in_or_app. left.
      do 7 right. exact He.
    + rewrite !checks_app, checks_choice_trace. cbn [app].
      assert (Ht' : checks tail = []).
      { destruct Hr as [[_ ->] | (x & _ & _ & ->)];
          [reflexivity | apply checks_logged]. }
      rewrite Ht', app_nil_r. reflexivity.
    + destruct Hr as [[-> _] | (x & -> & -> & _)]; eauto.
  - exfalso. destruct res0 as [[]|[cls m]].
    + apply (verified_events _ _ _ _ _ _ _ _ Hm) in Hi
        as [(a & E0) | [(b & E0) | (s & E0)]]; discriminate E0.
    + destruct cls; destruct Hm as [_ ->]; contradiction.
Qed.

(** A call with a text that passes the size check goes on to the
    directory, and when the preparation succeeds, to the write. *)
Lemma run_reaches_write t filename w d w' tr data :
  Run os root script (Str t) filename w d w' tr ->
  Utf8.encode t = Some data -> Utf8.len data <= MAX_TEXT_SIZE ->
  (exists rest,
     tr = choice_trace os filename w
          ++ Mkdir root (fst (os_mkdir os root w)) :: rest) /\
  forall w1 cwd sa res w2,
    os_mkdir os root w = (Return tt, w1) ->
    os_getcwd os w1 = Return cwd ->
    os_abspath os script w1 = Return sa ->
    os_write os (target os root filename w) data w1 = (res, w2) ->
    w' = w2 /\
    exists rest,
      tr = choice_trace os filename w
           ++ [Mkdir root (Return tt); Getcwd (Return cwd);
               Log INFO (WorkingDirectory cwd); Abspath script (Return sa);
               Log INFO (ScriptDirectory (PosixPath.dirname sa));
               Log INFO (SaveTarget (target os root filename w));
               Write (target os root filename w) data res] ++ rest.
Proof.
  intros HR Hd Hl.
  apply run_body in HR as (r & btr & Hb & Hr).
  assert (Htail : exists tail, tr = btr ++ tail).
  { destruct Hr as [[_ ->] | (x & _ & _ & ->)];
      [exists []; now rewrite app_nil_r | eauto]. }
  destruct Htail as [tail ->].
  destruct Hb as [Ht | t0 Ht He | t0 d0 Ht He Hlt
                 | t0 d0 r w' str Ht He Hle Hst]; try discriminate Ht;
    injection Ht as <-; rewrite Hd in He; try discriminate He;
    injection He as <-; [lia|].
  apply storing_shape in Hst
    as (rm & w1 & Hm & [(e & -> & _ & _ & ->)
                       | (-> & [(e & Hg & _ & _ & ->)
                               | (cwd & Hg & [(e & Ha & _ & _ & ->)
                                            | (sa & wtr & Ha & Hwr & ->)])])]);
    rewrite Hm; cbn [fst].
  - split; [exists tail; now rewrite <- app_assoc|].
    intros w1' cwd sa res w2 E. discriminate E.
  - split; [exists ([Getcwd (Raise e)] ++ tail); now rewrite <- app_assoc|].
    intros w1' cwd sa res w2 E Hg'. injection E as <-.
    rewrite Hg in Hg'. discriminate Hg'.
  - split.
    { exists ([Getcwd (Return cwd); Log INFO (WorkingDirectory cwd);
               Abspath script (Raise e)] ++ tail).
      now rewrite <- app_assoc. }
    intros w1' cwd' sa res w2 E _ Ha'. injection E as <-.
    rewrite Ha in Ha'. discriminate Ha'.
  - apply written_event in Hwr as (res0 & vtr & -> & Hw & _).
    split.
    { exists ([Getcwd (Return cwd); Log INFO (WorkingDirectory cwd);
               Abspath script (Return sa);
               Log INFO (ScriptDirectory (PosixPath.dirname sa));
               Log INFO (SaveTarget (target os root filename w));
               Write (target os root filename w) data res0] ++ vtr ++ tail).
      rewrite <- !app_assoc. reflexivity. }
    intros w1' cwd' sa' res w2 E Hg' Ha' Hw'. injection E as <-.
    rewrite Hg in Hg'. injection Hg' as <-.
    rewrite Ha in Ha'. injection Ha' as <-.
    rewrite Hw in Hw'. injection Hw' as <- <-.
    split; [reflexivity|]. exists (vtr ++ tail).
    rewrite <- !app_assoc. reflexivity.
Qed.

(** The log lines of a call: those of the choice of the name, the
    three lines before the write, and the line of an outer handler. *)
Lemma run_log_lines text filename w d w' tr lvl x :
  Run os root script text filename w d w' tr ->
  In (Log lvl x) tr ->
  In (Log lvl x) (choice_trace os filename w)
  \/ lvl = ERROR
  \/ lvl = INFO /\
     ((exists cwd, x = WorkingDirectory cwd)
      \/ (exists dir, x = ScriptDirectory dir)
      \/ x = SaveTarget (target os root filename w)).
Proof.
  intros HR Hin.
  apply run_body in HR as (r & btr & Hb & Hr).
  assert (Hin' : In (Log lvl x) btr \/ lvl = ERROR).
  { destruct Hr as [[_ ->] | (e & _ & _ & ->)]; [now left|].
    apply in_app_or in Hin as [Hin | [E | []]]; [now left|].
    destruct (logged_is_log e) as [m Hm]. rewrite Hm in E.
    injection E as <- _. now right. }
  destruct Hin' as [Hin' | ->]; [|auto].
  destruct Hb as [| | |t data r w' str Ht Hd Hl Hs]; try contradiction.
  apply in_app_or in Hin' as [Hc | Hi]; [now left|].
  right. right.
  apply storing_shape in Hs
    as (rm & w1 & _ & [(e & _ & _ & _ & ->)
                      | (_ & [(e & _ & _ & _ & ->)
                             | (cwd & _ & [(e & _ & _ & _ & ->)
                                          | (sa & wtr & _ & Hwr & ->)])])]);
    simpl in Hi; in_list Hi;
    try solve [injection Hi as <- <-; split; eauto].
  exfalso. apply written_event in Hwr as (res0 & vtr & -> & _ & Hm).
  destruct Hi as [E0 | Hi]; [discriminate E0|].
  destruct res0 as [[]|[cls m]].
  - apply (verified_events _ _ _ _ _ _ _ _ Hm) in Hi
      as [(a & E0) | [(b & E0) | (s & E0)]]; discriminate E0.
  - destruct cls; destruct Hm as [_ ->]; contradiction.
Qed.

(** C9. After the write step the call verifies the outcome. Whenever
    the preparation succeeds and the write returns, the write is in the
    trace; and after a write that returned, [exists] is asked about the
    path just written, in the state the write left, and decides: when
    the file is not there the answer is the failure "not created" and
    the size is not asked for; when it is there [getsize] is asked, and
    a size of zero for a text that is not empty gives the failure
    "created but empty", while any other size, and the size zero for the
    empty text, gives the success that reports it. A success is answered
    in no other case. The checks are made nowhere else: an [exists] or a
    [getsize] in the trace is about the target and comes with a write
    that returned. *)
Theorem save_text_verifies_write t filename w r w' tr :
  save_text os root script (Str t) filename w = (r, w', tr) ->
  let p := target os root filename w in
  (forall data w1 cwd script_abs w2,
     Utf8.encode t = Some data -> Utf8.len data <= MAX_TEXT_SIZE ->
     os_mkdir os root w = (Return tt, w1) ->
     os_getcwd os w1 = Return cwd ->
     os_abspath os script w1 = Return script_abs ->
     os_write os p data w1 = (Return tt, w2) ->
     w' = w2 /\ In (Write p data (Return tt)) tr) /\
  (forall q data, In (Write q data (Return tt)) tr ->
     q = p /\
     (forall e, os_abspath os p w' = Raise e -> r = Return (answer e)) /\
     (forall abs_path, os_abspath os p w' = Return abs_path ->
        In (Exists p (os_exists os p w')) tr /\
        (os_exists os p w' = false ->
           r = Return (error (NotCreated abs_path)) /\
           forall s, ~ In (Getsize p s) tr) /\
        (os_exists os p w' = true ->
           In (Getsize p (os_getsize os p w')) tr /\
           (forall e, os_getsize os p w' = Raise e -> r = Return (answer e)) /\
           (os_getsize os p w' = Return 0 -> t <> [] ->
              r = Return (error (CreatedButEmpty abs_path))) /\
           (forall file_size, os_getsize os p w' = Return file_size ->
              file_size <> 0 \/ t = [] ->
              r = Return (success abs_path file_size
                                  (final_name os filename w))))) /\
     (forall abs_path file_size name,
        r = Return (success abs_path file_size name) ->
        os_abspath os p w' = Return abs_path /\
        os_exists os p w' = true /\
        os_getsize os p w' = Return file_size /\
        (file_size = 0 -> t = []))) /\
  (forall q b, In (Exists q b) tr ->
     q = p /\ exists data, In (Write p data (Return tt)) tr) /\
  (forall q s, In (Getsize q s) tr ->
     q = p /\ exists data, In (Write p data (Return tt)) tr) /\
  (forall q, In (Exists q false) tr ->
     exists abs_path, r = Return (error (NotCreated abs_path))) /\
  (forall q, In (Getsize q (Return 0)) tr -> t <> [] ->
     exists abs_path, r = Return (error (CreatedButEmpty abs_path))) /\
  (forall abs_path name, r = Return (success abs_path 0 name) -> t = []).
Proof.
  intros H. cbv zeta. apply save_text_inv in H as (d & -> & HR).
  split; [|split].
  - intros data w1 cwd sa w2 Hd Hl Hm Hg Ha Hw.
    destruct (run_reaches_write _ _ _ _ _ _ _ HR Hd Hl) as [_ Hreach].
    destruct (Hreach _ _ _ _ _ Hm Hg Ha Hw) as (-> & rest & ->).
    split; [reflexivity|].
    apply in_or_app. right. apply in_or_app. left. simpl. tauto.
  - intros q data Hin.
    destruct (run_after_write _ _ _ _ _ _ _ _ HR Hin)
      as (t0 & r0 & vtr & Ht & -> & Hv & Hsub & Hc & Hr).
    injection Ht as <-.
    split; [reflexivity|].
    assert (Hno : forall s, checks vtr = [Exists (target os root filename w) false] ->
                            ~ In (Getsize (target os root filename w) s) tr).
    { intros s E Hs. apply (in_checks (Getsize _ s) _ eq_refl) in Hs.
      rewrite Hc, E in Hs. destruct Hs as [Hs | []]. discriminate Hs. }
    destruct Hv as [e Ha | a Ha He | a e Ha He Hs | a Ha He Hs Hne
                   | a s Ha He Hs Hz].
    + destruct Hr as [E | (x & E & ->)]; [discriminate E|].
      injection E as <-.
      split; [|split].
      * intros e' E'. congruence.
      * intros a E'. congruence.
      * intros a s n E'. destruct (answer_is_error e) as [m Hm].
        rewrite Hm in E'. discriminate E'.
    + destruct Hr as [E | (x & E & _)]; [|discriminate E].
      injection E as <-.
      split; [|split].
      * intros e' E'. congruence.
      * intros a' E'. rewrite Ha in E'. injection E' as <-.
        rewrite He. split; [apply Hsub; simpl; tauto|].
        split; [|discriminate].
        intros _. split; [reflexivity|].
        intros s. apply Hno. reflexivity.
      * intros a' s n E'. discriminate E'.
    + destruct Hr as [E | (x & E & ->)]; [discriminate E|].
      injection E as <-.
      split; [|split].
      * intros e' E'. congruence.
      * intros a' E'. rewrite Ha in E'. injection E' as <-.
        rewrite He, Hs. split; [apply Hsub; simpl; tauto|].
        split; [discriminate|].
        intros _. split; [apply Hsub; simpl; tauto|].
        split; [|split].
        -- intros e' E'. congruence.
        -- discriminate.
        -- intros fs E'. discriminate E'.
      * intros a' s n E'. destruct (answer_is_error e) as [m Hm].
        rewrite Hm in E'. discriminate E'.
    + destruct Hr as [E | (x & E & _)]; [|discriminate E].
      injection E as <-.
      split; [|split].
      * intros e' E'. congruence.
      * intros a' E'. rewrite Ha in E'. injection E' as <-.
        rewrite He, Hs. split; [apply Hsub; simpl; tauto|].
        split; [discriminate|].
        intros _. split; [apply Hsub; simpl; tauto|].
        split; [|split].
        -- intros e' E'. discriminate E'.
        -- reflexivity.
        -- intros fs E' [Hz | Hz]; injection E' as <-; contradiction.
      * intros a' s n E'. discriminate E'.
    + destruct Hr as [E | (x & E & _)]; [|discriminate E].
      injection E as <-.
      split; [|split].
      * intros e' E'. congruence.
      * intros a' E'. rewrite Ha in E'. injection E' as <-.
        rewrite He, Hs. split; [apply Hsub; simpl; tauto|].
        split; [discriminate|].
        intros _. split; [apply Hsub; simpl; tauto|].
        split; [|split].
        -- intros e' E'. discriminate E'.
        -- intros E' Hne. injection E' as ->.
           destruct Hz as [Hz | Hz]; [now contradiction Hz | contradiction].
        -- intros fs E' _. now injection E' as <-.
      * intros a' s' n E'. injection E' as Ea _ Es _. subst a' s'.
        repeat split; try assumption.
        intros ->. destruct Hz as [Hz | Hz]; [now contradiction Hz | assumption].
  - apply run_cases in HR
      as [[Hc [m ->]]
         | (t0 & data & w1 & r & vtr & Ht & _ & _ & _ & Hv & Hc & Hw & Hr)].
    + repeat split;
        try (intros; exfalso;
             match goal with
             | Hin : In ?e tr |- _ =>
                 apply (in_checks e) in Hin; [|reflexivity];
                 rewrite Hc in Hin; contradiction
             end).
      intros abs_path name E. discriminate E.
    + injection Ht as <-.
      destruct (verified_checks _ _ _ _ _ _ _ Hv) as (Hk & Hmiss & Hempty & Hok).
      rewrite <- Hc in Hk, Hmiss, Hempty.
      assert (Hsame : forall d', r = Return d' -> d' = d).
      { intros d' E. destruct Hr as [Hr | (e & He & _)]; congruence. }
      split; [|split; [|split; [|split]]].
      * intros q b Hin.
        apply (in_checks (Exists q b) _ eq_refl), Hk in Hin
          as [[b' E] | [s E]]; [|discriminate E].
        injection E as -> _. eauto.
      * intros q s Hin.
        apply (in_checks (Getsize q s) _ eq_refl), Hk in Hin
          as [[b' E] | [s' E]]; [discriminate E|].
        injection E as -> _. eauto.
      * intros q Hin.
        apply (in_checks (Exists q false) _ eq_refl), Hmiss in Hin as [a Ha].
        exists a. f_equal. symmetry. apply Hsame, Ha.
      * intros q Hin Hne.
        apply (in_checks (Getsize q (Return 0)) _ eq_refl), Hempty in Hin
          as [a Ha]; [|assumption].
        exists a. f_equal. symmetry. apply Hsame, Ha.
      * intros abs_path name E. injection E as ->.
        destruct Hr as [-> | (e & -> & He)].
        -- destruct (Hok _ _ _ eq_refl) as (_ & _ & _ & _ & [Hz | Hz]);
             [congruence | assumption].
        -- exfalso. destruct (answer_is_error e) as [m Hm].
           rewrite Hm in He. discriminate He.
Qed.

(** C10. The empty filename is handled as no filename. The two calls
    are the same computation, and the call with the empty filename
    takes its name from the clock: the name has the form
    [YYYY-MM-DD-HH-MM-SS.txt], every write of the call goes to that
    name under the root, a success reports that name, and when the
    preparation succeeds the call logs that path as its target and
    writes to it. Neither the warning nor the sanitizing of lines
    173-177 takes place: the call logs neither line, and for a text
    that passes the size check it reads the clock first and creates the
    directory next, although [validate_filename] refuses the empty
    string and [sanitize_path] would have answered [file.txt]. *)
Theorem save_text_empty_filename text w r w' tr :
  save_text os root script text (Some []) w = (r, w', tr) ->
  let name := strftime (os_now os w) ++ str ".txt" in
  (forall text0 w0,
     save_text os root script text0 (Some []) w0
     = save_text os root script text0 None w0) /\
  choose_filename os (Some []) w
  = (Return (strftime (os_now os w) ++ str ".txt"), w, [Now (os_now os w)]) /\
  final_name os (Some []) w = strftime (os_now os w) ++ str ".txt" /\
  fits TIMESTAMP_NAME (final_name os (Some []) w) = true /\
  validate_filename [] = false /\
  final_name os (Some []) w <> ensure_txt (sanitize_path []) /\
  save_text os root script text None w = (r, w', tr) /\
  (forall p data res, In (Write p data res) tr -> p = PosixPath.join root name) /\
  (forall d v, r = Return d -> get d "filename" = Some v -> v = VStr name) /\
  (forall f, ~ In (Log WARNING (UnsafeFilenameTried f)) tr) /\
  (forall f, ~ In (Log INFO (FilenameSanitized f)) tr) /\
  (forall t data,
     text = Str t -> Utf8.encode t = Some data ->
     Utf8.len data <= MAX_TEXT_SIZE ->
     (exists rest,
        tr = Now (os_now os w) :: Mkdir root (fst (os_mkdir os root w)) :: rest) /\
     forall w1 cwd script_abs res w2,
       os_mkdir os root w = (Return tt, w1) ->
       os_getcwd os w1 = Return cwd ->
       os_abspath os script w1 = Return script_abs ->
       os_write os (PosixPath.join root name) data w1 = (res, w2) ->
       In (Log INFO (SaveTarget (PosixPath.join root name))) tr /\
       In (Write (PosixPath.join root name) data res) tr).
Proof.
  intros H. cbv zeta.
  assert (E : final_name os (Some []) w = strftime (os_now os w) ++ str ".txt").
  { unfold final_name, chosen_name.
    destruct (ensure_txt_cases (strftime (os_now os w) ++ str ".txt"))
      as [[_ ->] | [H0 _]]; [reflexivity|].
    now rewrite endswith_app in H0. }
  assert (Et : target os root (Some []) w
               = PosixPath.join root (strftime (os_now os w) ++ str ".txt"))
    by (unfold target; now rewrite E).
  split; [reflexivity|]. split; [reflexivity|]. split; [exact E|].
  split; [rewrite E; apply strftime_form|].
  split; [reflexivity|]. split; [rewrite E; discriminate|].
  split; [exact H|].
  apply save_text_inv in H as (d & -> & HR).
  split; [|split; [|split; [|split]]].
  - intros p data res Hin. apply in_writes in Hin.
    apply run_writes in HR as [Ew | (t & bytes & _ & _ & _ & Ew)];
      rewrite Ew in Hin; [contradiction|].
    destruct Hin as [Hin | []]. injection Hin as <- _. exact Et.
  - intros d' v Hd Hv. injection Hd as <-.
    apply run_result in HR as [[m ->] | (abs_path & file_size & ->)].
    + discriminate Hv.
    + simpl in Hv. injection Hv as <-. now rewrite E.
  - intros f Hin.
    apply (run_log_lines _ _ _ _ _ _ _ _ HR) in Hin
      as [Hin | [Hin | [Hin _]]]; try discriminate Hin.
    simpl in Hin. in_list Hin.
  - intros f Hin.
    apply (run_log_lines _ _ _ _ _ _ _ _ HR) in Hin
      as [Hin | [Hin | [_ [[x Hin] | [[x Hin] | Hin]]]]];
      try discriminate Hin.
    simpl in Hin. in_list Hin.
  - intros t data -> Hd Hl.
    destruct (run_reaches_write _ _ _ _ _ _ _ HR Hd Hl) as [[rest ->] Hreach].
    split; [exists rest; reflexivity|].
    intros w1 cwd sa res w2 Hm Hg Ha Hw. rewrite <- Et in Hw |- *.
    destruct (Hreach _ _ _ _ _ Hm Hg Ha Hw) as (_ & rest' & Etr).
    rewrite Etr. split; apply in_or_app; right; simpl; tauto.
Qed.

End ChecksAndNames.

Section Overwriting.

Context {W : Type}.
Variable os : OS W.
Variables root script : pystr.

(** With a filename, or within one second of the clock, two calls aim
    at the same path. *)
Lemma target_same_name (filename : option pystr) (w w1 : W) :
  (exists c f, filename = Some (c :: f)) \/ os_now os w1 = os_now os w ->
  target os root filename w1 = target os root filename w.
Proof.
  unfold target, final_name, chosen_name.
  intros [(c & f & ->) | E]; [reflexivity|].
  destruct filename as [[|c f]|]; now rewrite ?E.
Qed.

(** A call on a file system that does what it is asked. *)
Lemma save_text_faithful_run content t filename w data :
  Faithful os content ->
  Utf8.encode t = Some data ->
  Utf8.len data <= MAX_TEXT_SIZE ->
  exists abs_path w' tr,
    save_text os root script (Str t) filename w
    = (Return (success abs_path (Utf8.len data) (final_name os filename w)),
       w', tr) /\
    content w' (target os root filename w) = Some data.
Proof.
  intros HF Hd Hl.
  unfold target, final_name.
  set (name := ensure_txt (chosen_name os filename w)).
  set (p := PosixPath.join root name).
  destruct (faithful_mkdir _ _ HF root w) as (w1 & Hm).
  destruct (faithful_getcwd _ _ HF w1) as (cwd & Hg).
  destruct (faithful_abspath _ _ HF script w1) as (script_abs & Hs).
  destruct (faithful_write _ _ HF p data w1) as (w2 & Hw & Hc).
  destruct (faithful_abspath _ _ HF p w2) as (abs_path & Ha).
  pose proof (faithful_exists _ _ HF p w2) as He. rewrite Hc in He.
  pose proof (faithful_getsize _ _ HF p w2 data Hc) as Hz.
  assert (Hn : (Utf8.len data =? 0) && (0 <? N.of_nat (length t)) = false).
  { destruct data as [|b data]; [|reflexivity].
    now rewrite (encode_empty t Hd). }
  apply N.ltb_ge in Hl.
  exists abs_path, w2. eexists. split; [|exact Hc].
  unfold save_text, save_text_body, verify, write.
  rewrite translate_newlines_posix.
  unfold bind, attempt, encode, mkdir, getcwd, abspath, exists_, getsize,
    log, reading, changing.
  rewrite Hd. unfold ret at 1. rewrite Hl, choose_filename_run.
  fold name. fold p. rewrite Hm, Hg, Hs. unfold ret at 1. rewrite Hw.
  rewrite Ha, He. cbn [negb]. rewrite Hz, Hn. unfold ret. reflexivity.
Qed.

(** X12. Two calls in a row under the same name, on a file system that
    does what it is asked: both answer a success, and the file holds
    the second text. The name is the same when a filename is given, and
    also when none is given and both calls read the same second off the
    clock: nothing keeps the second call from replacing the file of the
    first. *)
Theorem save_text_twice_last_wins content t1 t2 filename w data1 data2 :
  Faithful os content ->
  Utf8.encode t1 = Some data1 -> Utf8.len data1 <= MAX_TEXT_SIZE ->
  Utf8.encode t2 = Some data2 -> Utf8.len data2 <= MAX_TEXT_SIZE ->
  let w1 := snd (fst (save_text os root script (Str t1) filename w)) in
  (exists c f, filename = Some (c :: f)) \/ os_now os w1 = os_now os w ->
  exists path1 path2 w2 tr2,
    fst (fst (save_text os root script (Str t1) filename w))
    = Return (success path1 (Utf8.len data1) (final_name os filename w)) /\
    save_text os root script (Str t2) filename w1
    = (Return (success path2 (Utf8.len data2) (final_name os filename w)),
       w2, tr2) /\
    content w2 (target os root filename w) = Some data2.
Proof.
  intros HF Hd1 Hl1 Hd2 Hl2 w1 Hsame.
  destruct (save_text_faithful_run content t1 filename w data1 HF Hd1 Hl1)
    as (path1 & w1' & tr1 & E1 & _).
  assert (Ew : w1 = w1') by (unfold w1; now rewrite E1).
  destruct (save_text_faithful_run content t2 filename w1 data2 HF Hd2 Hl2)
    as (path2 & w2 & tr2 & E2 & Hc2).
  pose proof (target_same_name filename w w1 Hsame) as Et.
  assert (En : final_name os filename w1 = final_name os filename w).
  { unfold final_name, chosen_name.
    destruct Hsame as [(c & f & ->) | E]; [reflexivity|].
    destruct filename as [[|c f]|]; now rewrite ?E. }
  rewrite En in E2. rewrite Et in Hc2.
  exists path1, path2, w2, tr2. rewrite E1. auto.
Qed.

End Overwriting.

(* ================================================================== *)
(** * [main] and [signal_handler] *)
(* ================================================================== *)

Section MainFacts.

Context {W : Type}.
Variable host : Host W.
Variable dir : pystr.

(** X13. In the runs of [main] that the model covers (the directory
    cannot be created, or [mcp.run] returns or ends with an exception),
    the three opening lines are logged first and the line of the
    [finally] clause last. When the directory was created, [mcp.run] is
    called once, in the state that left; [main] returns normally when
    [mcp.run] returns, after a [KeyboardInterrupt] and after an
    exception that is a subclass of [Exception], and whatever else
    [mcp.run] ended with ([SystemExit], another [BaseException]) goes
    through [main] unchanged, after the last line was logged. *)
Theorem main_logs_shutdown_last (w : W) :
  exists r w' middle,
    main host dir w
    = (r, w',
       [Logged INFO Starting; Logged INFO (SaveDirectory dir);
        Logged INFO (MaximumSize MAX_TEXT_SIZE)]
       ++ middle ++ [Logged INFO ShutdownComplete]) /\
    (forall e w1,
       os_mkdir (host_os host) dir w = (Raise e, w1) ->
       r = Finished tt /\ w' = w1) /\
    (forall w1,
       os_mkdir (host_os host) dir w = (Return tt, w1) ->
       w' = snd (host_run host w1) /\
       In (Ran (fst (host_run host w1))) middle /\
       r = match fst (host_run host w1) with
           | Finished _ => Finished tt
           | Thrown KeyboardInterrupt => Finished tt
           | Thrown (Ordinary _) => Finished tt
           | Thrown (SystemExit code) => Thrown (SystemExit code)
           | Thrown (OtherBaseException class_name) =>
               Thrown (OtherBaseException class_name)
           end).
Proof.
  unfold main, main_body.
  destruct (os_mkdir (host_os host) dir w) as [[[]|[cls m]] w1].
  - destruct (host_run host w1) as [[[]|[[cls m]| |code|class_name]] w2] eqn:Hrun.
    + exists (Finished tt), w2,
        [MadeDirectory dir (Return tt); Ran (Finished tt)].
      split; [reflexivity|]. split; [intros e w0 E; discriminate E|].
      intros w0 E. injection E as <-. rewrite Hrun. simpl. tauto.
    + exists (Finished tt), w2,
        [MadeDirectory dir (Return tt); Ran (Thrown (Ordinary (Exn cls m)));
         Logged ERROR (StartupError m); Slept 5].
      split; [reflexivity|]. split; [intros e w0 E; discriminate E|].
      intros w0 E. injection E as <-. rewrite Hrun. simpl. tauto.
    + exists (Finished tt), w2,
        [MadeDirectory dir (Return tt); Ran (Thrown KeyboardInterrupt);
         Logged INFO Interrupted].
      split; [reflexivity|]. split; [intros e w0 E; discriminate E|].
      intros w0 E. injection E as <-. rewrite Hrun. simpl. tauto.
    + exists (Thrown (SystemExit code)), w2,
        [MadeDirectory dir (Return tt); Ran (Thrown (SystemExit code))].
      split; [reflexivity|]. split; [intros e w0 E; discriminate E|].
      intros w0 E. injection E as <-. rewrite Hrun. simpl. tauto.
    + exists (Thrown (OtherBaseException class_name)), w2,
        [MadeDirectory dir (Return tt);
         Ran (Thrown (OtherBaseException class_name))].
      split; [reflexivity|]. split; [intros e w0 E; discriminate E|].
      intros w0 E. injection E as <-. rewrite Hrun. simpl. tauto.
  - exists (Finished tt), w1,
      [MadeDirectory dir (Raise (Exn cls m));
       Logged ERROR (StartupError m); Slept 5].
    split; [reflexivity|]. split.
    + intros e w0 E. injection E as _ <-. auto.
    + intros w0 E. discriminate E.
Qed.

(** X14. When the directory cannot be created, [mcp.run] is never
    called: the error is logged, [main] waits five seconds, logs the
    last line and returns, and the state is the one the failed call
    left. *)
Theorem main_directory_failure (w w1 : W) (cls : exn_class) (m : message) :
  os_mkdir (host_os host) dir w = (Raise (Exn cls m), w1) ->
  main host dir w
  = (Finished tt, w1,
     [Logged INFO Starting; Logged INFO (SaveDirectory dir);
      Logged INFO (MaximumSize MAX_TEXT_SIZE);
      MadeDirectory dir (Raise (Exn cls m));
      Logged ERROR (StartupError m); Slept 5;
      Logged INFO ShutdownComplete]) /\
  forall r, ~ In (Ran r) (snd (main host dir w)).
Proof.
  intros Hm. unfold main, main_body. rewrite Hm.
  split; [reflexivity|].
  intros r Hin. cbn in Hin. in_list Hin.
Qed.

(** X15. What [signal_handler] raises for a signal, once it comes out
    of [mcp.run], is caught by neither handler of [main]: [main] logs
    its last line and ends with [SystemExit(0)], for every signal
    number. *)
Theorem main_signal_exit (w w1 w2 : W) (sig : N) :
  os_mkdir (host_os host) dir w = (Return tt, w1) ->
  host_run host w1 = (fst (signal_handler sig), w2) ->
  main host dir w
  = (Thrown (SystemExit 0), w2,
     [Logged INFO Starting; Logged INFO (SaveDirectory dir);
      Logged INFO (MaximumSize MAX_TEXT_SIZE);
      MadeDirectory dir (Return tt); Ran (Thrown (SystemExit 0));
      Logged INFO ShutdownComplete]).
Proof.
  intros Hm Hr. unfold main, main_body. rewrite Hm, Hr. reflexivity.
Qed.

End MainFacts.

(* ================================================================== *)
(** * The further properties on concrete calls *)
(* ================================================================== *)

(** A text of two characters, the second one taking three bytes. *)
Lemma save_text_size_in_characters_witness :
  Utf8.encode [cp "a"; 0x20AC] = Some [0x61; 0xE2; 0x82; 0xAC] /\
  N.of_nat (length [cp "a"; 0x20AC]) <= Utf8.len [0x61; 0xE2; 0x82; 0xAC]
  /\ Utf8.len [0x61; 0xE2; 0x82; 0xAC] <= 4 * N.of_nat (length [cp "a"; 0x20AC]).
Proof.
  split; [reflexivity|].
  destruct (save_text_size_in_characters
              RefFS.os ROOT SCRIPT [cp "a"; 0x20AC] None RefFS.empty
              [0x61; 0xE2; 0x82; 0xAC] eq_refl) as [[H1 H2] _].
  split; assumption.
Defined.

(** A lone surrogate between two letters. *)
Lemma save_text_surrogate_text_witness :
  In 0xD800 [cp "a"; 0xD800; cp "b"] /\
  0xD800 <= 0xD800 <= 0xDFFF /\
  exists m,
    save_text RefFS.os ROOT SCRIPT (Str [cp "a"; 0xD800; cp "b"])
              (Some (str "a.txt")) RefFS.empty
    = (Return (error (Unexpected m)), RefFS.empty,
       [Log ERROR (UnexpectedErrorLogged m)]).
Proof.
  assert (Hin : In 0xD800 [cp "a"; 0xD800; cp "b"]) by (simpl; auto).
  assert (Hc : 0xD800 <= 0xD800 <= 0xDFFF) by (split; discriminate).
  split; [exact Hin|]. split; [exact Hc|].
  exact (save_text_surrogate_text RefFS.os ROOT SCRIPT _ _
           (Some (str "a.txt")) RefFS.empty Hin Hc).
Defined.

(** The traversal attempt once more: one write, of the four bytes of
    the text. *)
Lemma save_text_writes_encoding_once_witness :
  exists t,
    Str (str "data") = Str t /\
    Utf8.encode t = Some (str "data") /\
    writes (snd (save_text RefFS.os ROOT SCRIPT (Str (str "data"))
                           (Some (str "../../etc/passwd")) RefFS.empty))
    = [(str "/srv/passwd.txt", str "data")].
Proof.
  assert (Hin : In (Write (str "/srv/passwd.txt") (str "data") (Return tt))
                   (snd (save_text RefFS.os ROOT SCRIPT (Str (str "data"))
                           (Some (str "../../etc/passwd")) RefFS.empty))).
  { rewrite run_traversal. simpl. tauto. }
  rewrite run_traversal in Hin |- *.
  destruct (save_text_writes_encoding_once
              RefFS.os ROOT SCRIPT _ _ _ _ _ _ _ _ _ run_traversal Hin)
    as (t & Ht & Hd & _ & Hw & _).
  exists t. repeat split; assumption.
Defined.

(** A directory that cannot be written to. *)
Lemma save_text_write_failure_witness :
  fst (fst (save_text (Scripted.os read_only) ROOT SCRIPT (Str (str "x"))
                      (Some (str "a.txt")) tt))
  = Return (error (NoWritePermission (str "a.txt"))) /\
  checks (snd (save_text (Scripted.os read_only) ROOT SCRIPT (Str (str "x"))
                         (Some (str "a.txt")) tt)) = [].
Proof.
  destruct (save_text_write_failure
              (Scripted.os read_only) ROOT SCRIPT (Str (str "x"))
              (Some (str "a.txt")) tt _ _ _
              (str "/srv/a.txt") (str "x") PermissionError
              (Raw (str "Permission denied")) eq_refl)
    as [Hc Hr].
  - simpl. tauto.
  - split; [exact Hr | exact Hc].
Defined.

(** The root cannot be created, and the working directory is gone. *)
Lemma save_text_setup_failure_witness :
  fst (fst (save_text (Scripted.os no_directory) ROOT SCRIPT (Str (str "x"))
                      (Some (str "a.txt")) tt))
  = Return (error (Unexpected (Raw (str "Permission denied")))) /\
  writes (snd (save_text (Scripted.os no_cwd) ROOT SCRIPT (Str (str "x"))
                         (Some (str "a.txt")) tt)) = [].
Proof.
  split.
  - destruct (save_text_setup_failure
                (Scripted.os no_directory) ROOT SCRIPT (Str (str "x"))
                (Some (str "a.txt")) tt _ _ _
                (Exn PermissionError (Raw (str "Permission denied"))) eq_refl)
      as (_ & _ & Hr).
    + left. exists ROOT. simpl. tauto.
    + exact Hr.
  - destruct (save_text_setup_failure
                (Scripted.os no_cwd) ROOT SCRIPT (Str (str "x"))
                (Some (str "a.txt")) tt _ _ _
                (Exn OSError (Raw (str "No such file or directory"))) eq_refl)
      as (Hw & _ & _).
    + right. simpl. tauto.
    + exact Hw.
Defined.

(** The success of the traversal attempt reports what the file system
    answered. *)
Lemma save_text_success_after_write_witness :
  exists t data w1 abs_path file_size,
    Str (str "data") = Str t /\ Utf8.encode t = Some data /\
    os_write RefFS.os (str "/srv/passwd.txt") data w1
    = (Return tt, RefFS.store (str "/srv/passwd.txt") (str "data") RefFS.empty) /\
    os_getsize RefFS.os (str "/srv/passwd.txt")
               (RefFS.store (str "/srv/passwd.txt") (str "data") RefFS.empty)
    = Return file_size /\
    success (str "/srv/passwd.txt") 4 (str "passwd.txt")
    = success abs_path file_size (str "passwd.txt").
Proof.
  destruct (save_text_success_after_write
              RefFS.os ROOT SCRIPT _ _ _ _ _ _ run_traversal eq_refl)
    as (t & data & w1 & a & s & Ht & Hd & Hw & _ & _ & Hs & _ & Hr & _).
  exists t, data, w1, a, s. repeat split; assumption.
Defined.

(** The state after the traversal attempt is the one its write left. *)
Lemma save_text_state_changes_witness :
  RefFS.store (str "/srv/passwd.txt") (str "data") RefFS.empty = RefFS.empty
  \/ (exists rm,
        os_mkdir RefFS.os ROOT RefFS.empty
        = (rm, RefFS.store (str "/srv/passwd.txt") (str "data") RefFS.empty))
  \/ exists w1 data res,
       os_mkdir RefFS.os ROOT RefFS.empty = (Return tt, w1) /\
       os_write RefFS.os
                (target RefFS.os ROOT (Some (str "../../etc/passwd")) RefFS.empty)
                data w1
       = (res, RefFS.store (str "/srv/passwd.txt") (str "data") RefFS.empty).
Proof.
  exact (save_text_state_changes
           RefFS.os ROOT SCRIPT _ _ _ _ _ _ run_traversal).
Defined.

(** [x] and then [y] under the name [report.txt]: the file holds [y]. *)
Lemma save_text_twice_last_wins_witness :
  exists path1 path2 w2 tr2,
    fst (fst (save_text RefFS.os ROOT SCRIPT (Str (str "x"))
                        (Some (str "report.txt")) RefFS.empty))
    = Return (success path1 1 (str "report.txt")) /\
    save_text RefFS.os ROOT SCRIPT (Str (str "y")) (Some (str "report.txt"))
      (snd (fst (save_text RefFS.os ROOT SCRIPT (Str (str "x"))
                           (Some (str "report.txt")) RefFS.empty)))
    = (Return (success path2 1 (str "report.txt")), w2, tr2) /\
    RefFS.content w2 (str "/srv/report.txt") = Some (str "y").
Proof.
  assert (H1 : Utf8.len (str "x") <= MAX_TEXT_SIZE) by (vm_compute; discriminate).
  assert (H2 : Utf8.len (str "y") <= MAX_TEXT_SIZE) by (vm_compute; discriminate).
  exact (save_text_twice_last_wins
           RefFS.os ROOT SCRIPT RefFS.content (str "x") (str "y")
           (Some (str "report.txt")) RefFS.empty (str "x") (str "y")
           RefFS_faithful eq_refl H1 eq_refl H2
           (or_introl (ex_intro _ (cp "r")
                         (ex_intro _ (str "eport.txt") eq_refl)))).
Defined.

(** The server is started where the directory cannot be created. *)
Lemma main_directory_failure_witness :
  fst (fst (main (scripted_host no_directory (Finished tt)) ROOT tt))
  = Finished tt /\
  In (Slept 5) (snd (main (scripted_host no_directory (Finished tt)) ROOT tt)).
Proof.
  destruct (main_directory_failure
              (scripted_host no_directory (Finished tt)) ROOT tt tt
              PermissionError (Raw (str "Permission denied")) eq_refl)
    as [E _].
  rewrite E. split; [reflexivity | simpl; tauto].
Defined.

(** SIGTERM while the server runs. *)
Lemma main_signal_exit_witness :
  fst (fst (main (scripted_host Scripted.vanished (fst (signal_handler 15)))
                 ROOT tt))
  = Thrown (SystemExit 0).
Proof.
  rewrite (main_signal_exit
             (scripted_host Scripted.vanished (fst (signal_handler 15)))
             ROOT tt tt tt 15 eq_refl eq_refl).
  reflexivity.
Defined.

(* ================================================================== *)
(** * The checks and the empty filename on concrete calls *)
(* ================================================================== *)

(** The file is gone after a write that returned, and the file is
    empty after the write of a text that is not: the write is in the
    trace, and the checks answer the two failures. *)
Lemma save_text_verifies_write_witness :
  In (Write (str "/srv/a.txt") (str "x") (Return tt))
     (snd (save_text (Scripted.os Scripted.vanished) ROOT SCRIPT
                     (Str (str "x")) (Some (str "a.txt")) tt)) /\
  fst (fst (save_text (Scripted.os Scripted.vanished) ROOT SCRIPT
                      (Str (str "x")) (Some (str "a.txt")) tt))
  = Return (error (NotCreated (str "/srv/a.txt"))) /\
  fst (fst (save_text (Scripted.os Scripted.truncated) ROOT SCRIPT
                      (Str (str "x")) (Some (str "a.txt")) tt))
  = Return (error (CreatedButEmpty (str "/srv/a.txt"))).
Proof.
  assert (Hl : Utf8.len (str "x") <= MAX_TEXT_SIZE) by (vm_compute; discriminate).
  assert (Hne : str "x" <> []) by discriminate.
  destruct (save_text_verifies_write
              (Scripted.os Scripted.vanished) ROOT SCRIPT (str "x")
              (Some (str "a.txt")) tt _ _ _ eq_refl)
    as (Hreach & Hafter & _).
  destruct (Hreach (str "x") tt (str "/") (str "/srv/a.txt") tt
                   eq_refl Hl eq_refl eq_refl eq_refl eq_refl) as [_ Hin].
  split; [exact Hin|]. split.
  - destruct (Hafter _ _ Hin) as (_ & _ & Hdec & _).
    destruct (Hdec (str "/srv/a.txt") eq_refl) as (_ & Hmiss & _).
    exact (proj1 (Hmiss eq_refl)).
  - destruct (save_text_verifies_write
                (Scripted.os Scripted.truncated) ROOT SCRIPT (str "x")
                (Some (str "a.txt")) tt _ _ _ eq_refl)
      as (Hreach' & Hafter' & _).
    destruct (Hreach' (str "x") tt (str "/") (str "/srv/a.txt") tt
                      eq_refl Hl eq_refl eq_refl eq_refl eq_refl) as [_ Hin'].
    destruct (Hafter' _ _ Hin') as (_ & _ & Hdec & _).
    destruct (Hdec (str "/srv/a.txt") eq_refl) as (_ & _ & Hthere).
    destruct (Hthere eq_refl) as (_ & _ & Hempty & _).
    exact (Hempty eq_refl Hne).
Defined.

(** The empty filename at noon: the file is named after the clock. *)
Lemma save_text_empty_filename_witness :
  In (Write (str "/srv/2024-03-09-12-00-05.txt") (str "hello") (Return tt))
     (snd (save_text RefFS.os ROOT SCRIPT (Str (str "hello")) (Some [])
                     RefFS.empty)) /\
  forall d v,
    fst (fst (save_text RefFS.os ROOT SCRIPT (Str (str "hello")) (Some [])
                        RefFS.empty)) = Return d ->
    get d "filename" = Some v ->
    v = VStr (str "2024-03-09-12-00-05.txt").
Proof.
  assert (Hl : Utf8.len (str "hello") <= MAX_TEXT_SIZE)
    by (vm_compute; discriminate).
  destruct (save_text_empty_filename
              RefFS.os ROOT SCRIPT (Str (str "hello")) RefFS.empty _ _ _ eq_refl)
    as (_ & _ & _ & _ & _ & _ & _ & _ & Hname & _ & _ & Hreach).
  destruct (Hreach (str "hello") (str "hello") eq_refl eq_refl Hl)
    as [_ Hwrite].
  destruct (Hwrite RefFS.empty (str "/home/user") SCRIPT (Return tt)
                   (RefFS.store (str "/srv/2024-03-09-12-00-05.txt")
                                (str "hello") RefFS.empty)
                   eq_refl eq_refl eq_refl eq_refl) as [_ Hin].
  split; [exact Hin | exact Hname].
Defined.
